(** * shoop.utils._united_decimal: decimals tagged with a unit

    A shallow embedding of [UnitedDecimal] and [UnitMixupError].  The base
    class [decimal.Decimal] belongs to the Python standard library, so it
    enters as an interface ([DecimalPrimitive]); the abstract method
    [unit_matches_with] and the class name are supplied by each concrete
    subclass ([UnitFamily]).  A reference instance of both is given further
    down and is used to run the methods on concrete operands.

    The methods are embedded as Python calls them.  [a + b] with a
    UnitedDecimal [a] on the left is [a.__add__(b)], and likewise for the
    other operators.  With a plain Decimal or an int on the left and a
    UnitedDecimal [a] on the right, [s + a] is [a.__radd__(s)]: the
    reflected method of a subclass that overrides it is tried before
    Decimal's own, and int's returns NotImplemented.  The keyword arguments
    that the methods pass along only carry the decimal context, which is
    part of the primitive here.  The rounding and conversion methods
    (lines 173-189) add nothing to the unit checks and are not embedded. *)

From Stdlib Require Import ZArith NArith Bool String Ascii List Lia.
From Stdlib Require Import DecimalString.
Import ListNotations.

Local Open Scope string_scope.

(** ** Outcomes of a call: a returned value or a raised exception *)

Inductive result (E A : Type) : Type :=
| Ok (a : A)
| Raise (e : E).

Arguments Ok {E A} a.
Arguments Raise {E A} e.

Definition bind {E A B : Type} (r : result E A) (k : A -> result E B) : result E B :=
  match r with
  | Ok a => k a
  | Raise e => Raise e
  end.

Notation "x <- r ;; k" := (bind r (fun x => k))
  (at level 61, r at next level, right associativity).
Notation "r ;;; k" := (bind r (fun _ => k))
  (at level 61, right associativity).

(** ** Exception classes

    [class UnitMixupError(TypeError)] (line 192) extends the builtin
    hierarchy; the signals of the decimal module derive from
    [ArithmeticError]. *)

Inductive exc_class : Type :=
| cls_BaseException
| cls_Exception
| cls_TypeError
| cls_ArithmeticError
| cls_DecimalException
| cls_UnitMixupError.

Definition exc_class_eqb (c d : exc_class) : bool :=
  match c, d with
  | cls_BaseException, cls_BaseException
  | cls_Exception, cls_Exception
  | cls_TypeError, cls_TypeError
  | cls_ArithmeticError, cls_ArithmeticError
  | cls_DecimalException, cls_DecimalException
  | cls_UnitMixupError, cls_UnitMixupError => true
  | _, _ => false
  end.

(** The base named in each class statement. *)
Definition base_class (c : exc_class) : option exc_class :=
  match c with
  | cls_BaseException => None
  | cls_Exception => Some cls_BaseException
  | cls_TypeError => Some cls_Exception
  | cls_ArithmeticError => Some cls_Exception
  | cls_DecimalException => Some cls_ArithmeticError
  | cls_UnitMixupError => Some cls_TypeError
  end.

(** The method resolution order of [c]; the hierarchy is six classes deep at
    most, which bounds the walk. *)
Fixpoint mro_upto (fuel : nat) (c : exc_class) : list exc_class :=
  match fuel with
  | O => [c]
  | S fuel' =>
      match base_class c with
      | None => [c]
      | Some b => c :: mro_upto fuel' b
      end
  end.

Definition mro (c : exc_class) : list exc_class := mro_upto 6 c.

Definition issubclass (c d : exc_class) : bool :=
  existsb (exc_class_eqb d) (mro c).

(** ** The decimal primitive

    What [super(UnitedDecimal, self)] provides.  Every operation works on
    magnitudes and either returns or raises one of the module's signals
    (which ones are trapped is the business of the decimal context). *)

Class DecimalPrimitive : Type := {
  Decimal : Type;
  Signal : Type;
  Decimal_of_int : Z -> Decimal;
  Decimal_repr : Decimal -> string;
  Decimal_add : Decimal -> Decimal -> result Signal Decimal;
  Decimal_sub : Decimal -> Decimal -> result Signal Decimal;
  Decimal_mul : Decimal -> Decimal -> result Signal Decimal;
  Decimal_truediv : Decimal -> Decimal -> result Signal Decimal;
  Decimal_floordiv : Decimal -> Decimal -> result Signal Decimal;
  Decimal_mod : Decimal -> Decimal -> result Signal Decimal;
  Decimal_divmod : Decimal -> Decimal -> result Signal (Decimal * Decimal);
  Decimal_neg : Decimal -> result Signal Decimal;
  Decimal_pos : Decimal -> result Signal Decimal;
  Decimal_abs : Decimal -> result Signal Decimal;
  Decimal_eq : Decimal -> Decimal -> result Signal bool;
  Decimal_lt : Decimal -> Decimal -> result Signal bool;
  Decimal_le : Decimal -> Decimal -> result Signal bool;
  Decimal_gt : Decimal -> Decimal -> result Signal bool;
  Decimal_ge : Decimal -> Decimal -> result Signal bool
}.

(** ** Python objects that reach the methods *)

Section Objects.
Context {D : DecimalPrimitive}.
Variable unit_tag : Type.

(** An instance of a subclass of [UnitedDecimal]: its concrete class with
    whatever parameters the class attaches (the unit), and the decimal
    magnitude inherited from [decimal.Decimal]. *)
Record UnitedDecimal : Type := mkUnited {
  unit_of : unit_tag;
  value : Decimal
}.

(** Operands and return values.  [Plain] is a [decimal.Decimal] that is no
    [UnitedDecimal].  [PyFloat] is a finite float, given by the decimal
    that [Decimal.from_float] makes of it (the conversion is exact) and by
    its repr.  [Literal] is a str, tuple or list that the constructor of
    Decimal accepts (['1.5'], [(0, (1, 5), -1)]), given by the decimal the
    constructor reads from it and by its repr; the arithmetic and the
    comparisons of Decimal do not convert it.  [Foreign] is an object of
    a type the decimal module knows nothing of (None, a dict, a date,
    ...), given by its repr.  Not among the operands here: a str, tuple or
    list that the constructor refuses, and the numbers that are neither
    int nor float (Fraction, complex), which the comparisons of Decimal
    treat in a way of their own. *)
Inductive pyobj : Type :=
| Plain (d : Decimal)
| United (a : UnitedDecimal)
| PyInt (z : Z)
| PyBool (b : bool)
| PyFloat (d : Decimal) (repr_text : string)
| Literal (d : Decimal) (repr_text : string)
| NotImplemented
| Foreign (repr_text : string).

Inductive exn : Type :=
| TypeError (msg : string)
| UnitMixupError (obj1 : UnitedDecimal) (obj2 : pyobj) (msg : string)
| DecimalException (s : Signal).

End Objects.

Arguments mkUnited {D unit_tag} unit_of value.
Arguments unit_of {D unit_tag} u.
Arguments value {D unit_tag} u.
Arguments Plain {D unit_tag} d.
Arguments United {D unit_tag} a.
Arguments PyInt {D unit_tag} z.
Arguments PyBool {D unit_tag} b.
Arguments PyFloat {D unit_tag} d repr_text.
Arguments Literal {D unit_tag} d repr_text.
Arguments NotImplemented {D unit_tag}.
Arguments Foreign {D unit_tag} repr_text.
Arguments TypeError {D unit_tag} msg.
Arguments UnitMixupError {D unit_tag} obj1 obj2 msg.
Arguments DecimalException {D unit_tag} s.

(** What a concrete subclass contributes: its units, [type(self).__name__]
    and its override of [unit_matches_with], which the base class leaves
    abstract (lines 38-44: it raises NotImplementedError there). *)
Class UnitFamily {D : DecimalPrimitive} : Type := {
  unit_tag : Type;
  type_name : unit_tag -> string;
  unit_matches_with : UnitedDecimal unit_tag -> pyobj unit_tag -> bool
}.

(** ** Helpers from the Python runtime *)

(** [str.replace(old, new)] for a non-empty [old]: every occurrence, left to
    right, without overlap.  [skip] counts the characters of a matched
    occurrence still to be dropped. *)
Fixpoint replace_from (old new : string) (skip : nat) (s : string) : string :=
  match s with
  | EmptyString => EmptyString
  | String c s' =>
      match skip with
      | S k => replace_from old new k s'
      | O =>
          if String.prefix old s
          then new ++ replace_from old new (String.length old - 1) s'
          else String c (replace_from old new O s')
      end
  end.

Definition str_replace (old new s : string) : string := replace_from old new 0 s.

(** [repr] of an int. *)
Definition int_repr (z : Z) : string := NilZero.string_of_int (Z.to_int z).

(** ** The methods of [UnitedDecimal] *)

Section Methods.
Context {D : DecimalPrimitive} {F : UnitFamily}.

Local Abbreviation obj := (pyobj unit_tag).
Local Abbreviation united := (UnitedDecimal unit_tag).
Local Abbreviation outcome := (result (exn unit_tag)).

(** [isinstance(other, UnitedDecimal)] *)
Definition isinstance_UnitedDecimal (other : obj) : bool :=
  match other with
  | United _ => true
  | _ => false
  end.

(** Lines 34-36. *)
Definition __repr__ (self : united) : string :=
  let decimal_repr := Decimal_repr (value self) in
  str_replace "Decimal" (type_name (unit_of self)) decimal_repr.

(** What [%r] prints for an operand. *)
Definition repr (o : obj) : string :=
  match o with
  | Plain d => Decimal_repr d
  | United a => __repr__ a
  | PyInt z => int_repr z
  | PyBool true => "True"
  | PyBool false => "False"
  | PyFloat _ r => r
  | Literal _ r => r
  | NotImplemented => "NotImplemented"
  | Foreign r => r
  end.

(** *** The inherited [decimal.Decimal] methods

    The arithmetic methods convert the other operand with
    [_convert_other] (a Decimal is taken as it is, an int or bool is
    converted, anything else, a float included, makes the method return
    NotImplemented); the comparisons convert it with
    [_convert_for_comparison], which takes a float as well.  Then they
    work on the magnitudes. *)

Definition _convert_other (other : obj) : option Decimal :=
  match other with
  | Plain d => Some d
  | United a => Some (value a)
  | PyInt z => Some (Decimal_of_int z)
  | PyBool b => Some (Decimal_of_int (Z.b2z b))
  | PyFloat _ _ => None
  | Literal _ _ => None
  | NotImplemented => None
  | Foreign _ => None
  end.

(** Comparing with a float only notes the FloatOperation signal, which
    the default context does not trap. *)
Definition _convert_for_comparison (other : obj) : option Decimal :=
  match other with
  | Plain d => Some d
  | United a => Some (value a)
  | PyInt z => Some (Decimal_of_int z)
  | PyBool b => Some (Decimal_of_int (Z.b2z b))
  | PyFloat d _ => Some d
  | Literal _ _ => None
  | NotImplemented => None
  | Foreign _ => None
  end.

Definition returned (r : result Signal Decimal) : outcome obj :=
  match r with
  | Ok d => Ok (Plain d)
  | Raise s => Raise (DecimalException s)
  end.

Definition answered (r : result Signal bool) : outcome obj :=
  match r with
  | Ok b => Ok (PyBool b)
  | Raise s => Raise (DecimalException s)
  end.

Definition Decimal_binary (op : Decimal -> Decimal -> result Signal Decimal)
  (self : Decimal) (other : obj) : outcome obj :=
  match _convert_other other with
  | None => Ok NotImplemented
  | Some o => returned (op self o)
  end.

(** The reflected methods swap the operands after the conversion. *)
Definition Decimal_reflected (op : Decimal -> Decimal -> result Signal Decimal)
  (self : Decimal) (other : obj) : outcome obj :=
  match _convert_other other with
  | None => Ok NotImplemented
  | Some o => returned (op o self)
  end.

Definition Decimal_compare (op : Decimal -> Decimal -> result Signal bool)
  (self : Decimal) (other : obj) : outcome obj :=
  match _convert_for_comparison other with
  | None => Ok NotImplemented
  | Some o => answered (op self o)
  end.

Definition Decimal___eq__ := Decimal_compare Decimal_eq.
Definition Decimal___lt__ := Decimal_compare Decimal_lt.
Definition Decimal___le__ := Decimal_compare Decimal_le.
Definition Decimal___gt__ := Decimal_compare Decimal_gt.
Definition Decimal___ge__ := Decimal_compare Decimal_ge.

(** [!=] is the negation of [==] on the magnitudes. *)
Definition Decimal___ne__ : Decimal -> obj -> outcome obj :=
  Decimal_compare (fun x y => b <- Decimal_eq x y ;; Ok (negb b)).

Definition Decimal___add__ := Decimal_binary Decimal_add.
Definition Decimal___sub__ := Decimal_binary Decimal_sub.
Definition Decimal___mul__ := Decimal_binary Decimal_mul.
Definition Decimal___truediv__ := Decimal_binary Decimal_truediv.
Definition Decimal___rtruediv__ := Decimal_reflected Decimal_truediv.
Definition Decimal___floordiv__ := Decimal_binary Decimal_floordiv.
Definition Decimal___rfloordiv__ := Decimal_reflected Decimal_floordiv.
Definition Decimal___mod__ := Decimal_binary Decimal_mod.

(** [None] stands for NotImplemented, [Some] for the returned tuple. *)
Definition Decimal___divmod__ (self : Decimal) (other : obj)
  : outcome (option (obj * obj)) :=
  match _convert_other other with
  | None => Ok None
  | Some o =>
      match Decimal_divmod self o with
      | Ok (q, r) => Ok (Some (Plain q, Plain r))
      | Raise s => Raise (DecimalException s)
      end
  end.

Definition Decimal___neg__ (self : Decimal) : outcome obj := returned (Decimal_neg self).
Definition Decimal___pos__ (self : Decimal) : outcome obj := returned (Decimal_pos self).
Definition Decimal___abs__ (self : Decimal) : outcome obj := returned (Decimal_abs self).

(** *** [UnitedDecimal] itself *)

(** What the constructor of Decimal reads from its argument: a decimal,
    an int, a float and a str, tuple or list in its format are accepted. *)
Definition Decimal___new__ (v : obj) : option Decimal :=
  match v with
  | Plain d => Some d
  | United a => Some (value a)
  | PyInt z => Some (Decimal_of_int z)
  | PyBool b => Some (Decimal_of_int (Z.b2z b))
  | PyFloat d _ => Some d
  | Literal d _ => Some d
  | NotImplemented => None
  | Foreign _ => None
  end.

(** Lines 46-57: [type(self)(value)].  The constructor inherited from
    Decimal accepts a decimal, an int, a float or a literal in its format
    and raises TypeError on an object it cannot convert (the text is the
    one of the pure-Python decimal module).  The result is always an
    instance of [type(self)]. *)
Definition new (self : united) (v : obj) : outcome united :=
  match v with
  | Plain d => Ok (mkUnited (unit_of self) d)
  | United a => Ok (mkUnited (unit_of self) (value a))
  | PyInt z => Ok (mkUnited (unit_of self) (Decimal_of_int z))
  | PyBool b => Ok (mkUnited (unit_of self) (Decimal_of_int (Z.b2z b)))
  | PyFloat d _ => Ok (mkUnited (unit_of self) d)
  | Literal d _ => Ok (mkUnited (unit_of self) d)
  | NotImplemented | Foreign _ =>
      Raise (TypeError ("Cannot convert " ++ repr v ++ " to Decimal"))
  end.

(** Lines 203-206: [UnitMixupError(obj1, obj2)] with the default message. *)
Definition UnitMixupError___init__ (obj1 : united) (obj2 : obj) : exn unit_tag :=
  UnitMixupError obj1 obj2 "Unit mixup".

(** Lines 59-61. *)
Definition _check_units_match (self : united) (other : obj) : outcome unit :=
  if negb (unit_matches_with self other)
  then Raise (UnitMixupError___init__ self other)
  else Ok tt.

(** Lines 63-77. *)
Definition __lt__ (self : united) (other : obj) : outcome obj :=
  _check_units_match self other ;;;
  Decimal___lt__ (value self) other.

Definition __le__ (self : united) (other : obj) : outcome obj :=
  _check_units_match self other ;;;
  Decimal___le__ (value self) other.

Definition __gt__ (self : united) (other : obj) : outcome obj :=
  _check_units_match self other ;;;
  Decimal___gt__ (value self) other.

Definition __ge__ (self : united) (other : obj) : outcome obj :=
  _check_units_match self other ;;;
  Decimal___ge__ (value self) other.

(** Lines 79-87. *)
Definition __eq__ (self : united) (other : obj) : outcome obj :=
  if negb (unit_matches_with self other)
  then Ok (PyBool false)
  else Decimal___eq__ (value self) other.

Definition __ne__ (self : united) (other : obj) : outcome obj :=
  if negb (unit_matches_with self other)
  then Ok (PyBool true)
  else Decimal___ne__ (value self) other.

(** Lines 89-95. *)
Definition __add__ (self : united) (other : obj) : outcome united :=
  _check_units_match self other ;;;
  (r <- Decimal___add__ (value self) other ;; new self r).

Definition __sub__ (self : united) (other : obj) : outcome united :=
  _check_units_match self other ;;;
  (r <- Decimal___sub__ (value self) other ;; new self r).

(** Lines 97-100. *)
Definition __mul__ (self : united) (other : obj) : outcome united :=
  if isinstance_UnitedDecimal other
  then Raise (TypeError ("Cannot multiply " ++ __repr__ self ++ " with " ++ repr other))
  else r <- Decimal___mul__ (value self) other ;; new self r.

(** Lines 164-165. *)
Definition __neg__ (self : united) : outcome united :=
  r <- Decimal___neg__ (value self) ;; new self r.

(** Lines 167-171. *)
Definition __pos__ (self : united) : outcome united :=
  r <- Decimal___pos__ (value self) ;; new self r.

Definition __abs__ (self : united) : outcome united :=
  r <- Decimal___abs__ (value self) ;; new self r.

(** Lines 102-103. *)
Definition __radd__ (self : united) (other : obj) : outcome united :=
  __add__ self other.

(** Lines 105-106: [(-self).__add__(other)], where [-self] is what
    [__neg__] returns. *)
Definition __rsub__ (self : united) (other : obj) : outcome united :=
  negated <- __neg__ self ;;
  __add__ negated other.

(** Lines 108-109. *)
Definition __rmul__ (self : united) (other : obj) : outcome united :=
  __mul__ self other.

(** Lines 111-117. *)
Definition __truediv__ (self : united) (other : obj) : outcome obj :=
  if isinstance_UnitedDecimal other
  then _check_units_match self other ;;;
       Decimal___truediv__ (value self) other
  else v <- Decimal___truediv__ (value self) other ;;
       u <- new self v ;; Ok (United u).

(** Lines 119-124. *)
Definition __rtruediv__ (self : united) (other : obj) : outcome obj :=
  if negb (isinstance_UnitedDecimal other)
  then
    let type_name := type_name (unit_of self) in
    Raise (TypeError ("Cannot divide non-" ++ type_name ++ " with " ++ type_name))
  else _check_units_match self other ;;;
       Decimal___rtruediv__ (value self) other.

(** Lines 126-127. *)
Definition __div__ := __truediv__.
Definition __rdiv__ := __rtruediv__.

(** Lines 129-135. *)
Definition __floordiv__ (self : united) (other : obj) : outcome obj :=
  if negb (isinstance_UnitedDecimal other)
  then
    let type_name := type_name (unit_of self) in
    let msg := "Cannot floor-div " ++ type_name ++ " with non-" ++ type_name in
    Raise (TypeError msg)
  else _check_units_match self other ;;;
       Decimal___floordiv__ (value self) other.

(** Lines 137-143. *)
Definition __rfloordiv__ (self : united) (other : obj) : outcome obj :=
  if negb (isinstance_UnitedDecimal other)
  then
    let type_name := type_name (unit_of self) in
    let msg := "Cannot floor-div non-" ++ type_name ++ " with " ++ type_name in
    Raise (TypeError msg)
  else _check_units_match self other ;;;
       Decimal___rfloordiv__ (value self) other.

(** Lines 145-150. *)
Definition __mod__ (self : united) (other : obj) : outcome united :=
  if negb (isinstance_UnitedDecimal other)
  then
    let type_name := type_name (unit_of self) in
    Raise (TypeError ("Cannot modulo " ++ type_name ++ " with non-" ++ type_name))
  else _check_units_match self other ;;;
       (r <- Decimal___mod__ (value self) other ;; new self r).

(** Lines 152-158.  Unpacking NotImplemented into [(div, mod)] is a
    TypeError of the interpreter. *)
Definition __divmod__ (self : united) (other : obj) : outcome (obj * united) :=
  if negb (isinstance_UnitedDecimal other)
  then
    let type_name := type_name (unit_of self) in
    Raise (TypeError ("Cannot divmod " ++ type_name ++ " with non-" ++ type_name))
  else _check_units_match self other ;;;
       (t <- Decimal___divmod__ (value self) other ;;
        match t with
        | Some (div, rem) => m <- new self rem ;; Ok (div, m)
        | None => Raise (TypeError "cannot unpack non-iterable NotImplementedType object")
        end).

(** Lines 160-162. *)
Definition __pow__ (self : united) (other : obj) : outcome obj :=
  let type_name := type_name (unit_of self) in
  Raise (TypeError (type_name ++ " cannot be powered")).

(** Lines 208-210: [UnitMixupError.__str__]; a TypeError prints its
    message. *)
Definition exn___str__ (e : exn unit_tag) : string :=
  match e with
  | UnitMixupError obj1 obj2 msg => msg ++ ": " ++ __repr__ obj1 ++ " vs " ++ repr obj2
  | TypeError msg => msg
  | DecimalException _ => ""
  end.

(** ** Exceptions as instances of their classes *)

Definition class_of (e : exn unit_tag) : exc_class :=
  match e with
  | TypeError _ => cls_TypeError
  | UnitMixupError _ _ _ => cls_UnitMixupError
  | DecimalException _ => cls_DecimalException
  end.

(** [isinstance(e, c)]: what an [except c:] clause tests. *)
Definition isinstance_exc (e : exn unit_tag) (c : exc_class) : bool :=
  issubclass (class_of e) c.

(** [try: r  except c: handler]. *)
Definition try_except {A : Type} (r : outcome A) (c : exc_class)
  (handler : exn unit_tag -> outcome A) : outcome A :=
  match r with
  | Ok a => Ok a
  | Raise e => if isinstance_exc e c then handler e else Raise e
  end.

(** The class of the exception a call raised, if it raised one:
    [type(e)]. *)
Definition raised_class {A : Type} (r : outcome A) : option exc_class :=
  match r with
  | Ok _ => None
  | Raise e => Some (class_of e)
  end.

End Methods.

(** ** A reference decimal primitive

    The finite values of [decimal.Decimal] as decimal.py stores them (a
    sign, the coefficient [_int] and the exponent [_exp]) with the
    arithmetic of that module in its default context: 28 digits of
    precision, rounding half even, exponents from -999999 to 999999, and
    the traps DivisionByZero, InvalidOperation and Overflow.  Every result
    of an arithmetic operation goes through the rounding step [_fix].
    NaNs and infinities are left out: the instance speaks of finite
    magnitudes only. *)

Module PyDecimal.
Local Open Scope Z_scope.

Record t : Type := mk {
  _sign : bool;
  _int : N;
  _exp : Z
}.

(** The exceptions the default context raises.  DivisionUndefined and
    DivisionImpossible are raised as InvalidOperation. *)
Inductive signal : Type :=
| DivisionByZero
| InvalidOperation
| Overflow.

Definition prec : Z := 28.
Definition Emax : Z := 999999.
Definition Emin : Z := -999999.
Definition Etiny : Z := Emin - prec + 1.
Definition Etop : Z := Emax - prec + 1.

Definition of_int (z : Z) : t := mk (z <? 0) (Z.abs_N z) 0.

(** [not self] *)
Definition is_zero (x : t) : bool := N.eqb (_int x) 0.

Definition copy_abs (x : t) : t := mk false (_int x) (_exp x).
Definition copy_negate (x : t) : t := mk (negb (_sign x)) (_int x) (_exp x).

(** [str(n)] for a coefficient and its length. *)
Definition digits (n : N) : string := NilZero.string_of_uint (N.to_uint n).
Definition ndigits (n : N) : Z := Z.of_nat (String.length (digits n)).

Definition adjusted (x : t) : Z := _exp x + ndigits (_int x) - 1.

(** [_fix]: bring a result into the context.  A zero has its exponent
    clamped; a number too large for [Emax] raises Overflow; a coefficient
    of more than [prec] digits, or one reaching below [Etiny], is rounded
    half even; anything else is returned as it is. *)
Definition fix_ (x : t) : result signal t :=
  if is_zero x then Ok (mk (_sign x) 0 (Z.min (Z.max (_exp x) Etiny) Emax))
  else
    let len := ndigits (_int x) in
    let exp_min := len + _exp x - prec in
    if Etop <? exp_min then Raise Overflow
    else
      let exp_min := if exp_min <? Etiny then Etiny else exp_min in
      if _exp x <? exp_min then
        let digits := len + _exp x - exp_min in
        let c := if digits <? 0 then 1 else Z.of_N (_int x) in
        let drop := if digits <? 0 then 1 else len - digits in
        let kept := c / 10 ^ drop in
        let rest := c mod 10 ^ drop in
        let half := 5 * 10 ^ (drop - 1) in
        let up := (half <? rest) || ((rest =? half) && Z.odd kept) in
        let coeff := if up then kept + 1 else kept in
        let carry := up && (prec <? ndigits (Z.to_N coeff)) in
        let coeff := if carry then coeff / 10 else coeff in
        let exp_min := if carry then exp_min + 1 else exp_min in
        if Etop <? exp_min then Raise Overflow
        else Ok (mk (_sign x) (Z.to_N coeff) exp_min)
      else Ok x.

(** The coefficient with its sign, and the same scaled to the exponent
    [e] (no larger than the number's own). *)
Definition signed (x : t) : Z :=
  if _sign x then - Z.of_N (_int x) else Z.of_N (_int x).

Definition scaled (x : t) (e : Z) : Z := signed x * 10 ^ (_exp x - e).

(** The decimal with signed coefficient [z] at exponent [e]; [zero_sign] is
    the sign given to a zero. *)
Definition of_signed (zero_sign : bool) (z e : Z) : t :=
  mk (if z =? 0 then zero_sign else z <? 0) (Z.abs_N z) e.

(** The sum before it is rounded: it has the smaller exponent, and a zero
    sum is negative only when both operands are. *)
Definition add_exact (x y : t) : t :=
  let e := Z.min (_exp x) (_exp y) in
  of_signed (_sign x && _sign y) (scaled x e + scaled y e) e.

Definition add (x y : t) : result signal t := fix_ (add_exact x y).

(** [self.__add__(other.copy_negate())] *)
Definition sub_exact (x y : t) : t := add_exact x (copy_negate y).

Definition sub (x y : t) : result signal t := add x (copy_negate y).

Definition mul_exact (x y : t) : t :=
  mk (xorb (_sign x) (_sign y)) (_int x * _int y) (_exp x + _exp y).

Definition mul (x y : t) : result signal t := fix_ (mul_exact x y).

Definition neg_exact (x : t) : t := if is_zero x then copy_abs x else copy_negate x.
Definition pos_exact (x : t) : t := if is_zero x then copy_abs x else x.

Definition neg (x : t) : result signal t := fix_ (neg_exact x).
Definition pos (x : t) : result signal t := fix_ (pos_exact x).

(** [abs] is [__neg__] of a negative number and [__pos__] of another. *)
Definition abs (x : t) : result signal t := if _sign x then neg x else pos x.

(** [_cmp]: the order of the numbers the operands denote. *)
Definition cmp (x y : t) : comparison :=
  let e := Z.min (_exp x) (_exp y) in
  Z.compare (scaled x e) (scaled y e).

Definition eq (x y : t) : bool := match cmp x y with Eq => true | _ => false end.
Definition lt (x y : t) : bool := match cmp x y with Lt => true | _ => false end.
Definition le (x y : t) : bool := match cmp x y with Gt => false | _ => true end.
Definition gt (x y : t) : bool := match cmp x y with Gt => true | _ => false end.
Definition ge (x y : t) : bool := match cmp x y with Lt => false | _ => true end.

(** [_rescale] to an exponent no larger than the number's own: the
    coefficient is padded with zeros. *)
Definition _rescale (x : t) (e : Z) : t :=
  mk (_sign x) (Z.to_N (Z.of_N (_int x) * 10 ^ (_exp x - e))) e.

(** [_divide] for a non-zero divisor: the integer quotient truncated
    towards zero, and the remainder with the sign of the dividend.  A
    quotient of more than [prec] digits is DivisionImpossible. *)
Definition _divide (x y : t) : result signal (t * t) :=
  let sign := xorb (_sign x) (_sign y) in
  let ideal_exp := Z.min (_exp x) (_exp y) in
  let expdiff := adjusted x - adjusted y in
  if is_zero x || (expdiff <=? -2)
  then Ok (mk sign 0 0, _rescale x ideal_exp)
  else
    let op1 := Z.of_N (_int x) * 10 ^ (_exp x - ideal_exp) in
    let op2 := Z.of_N (_int y) * 10 ^ (_exp y - ideal_exp) in
    let q := op1 / op2 in
    let r := op1 mod op2 in
    if (expdiff <=? prec) && (q <? 10 ^ prec)
    then Ok (mk sign (Z.to_N q) 0, mk (_sign x) (Z.to_N r) ideal_exp)
    else Raise InvalidOperation.

(** For a zero divisor both DivisionByZero and InvalidOperation are
    signalled, and InvalidOperation is the one raised. *)
Definition divmod (x y : t) : result signal (t * t) :=
  if is_zero y
  then Raise InvalidOperation
  else
    qr <- _divide x y ;;
    remainder <- fix_ (snd qr) ;;
    Ok (fst qr, remainder).

Definition floordiv (x y : t) : result signal t :=
  if is_zero y
  then if is_zero x then Raise InvalidOperation else Raise DivisionByZero
  else qr <- _divide x y ;; Ok (fst qr).

Definition modulo (x y : t) : result signal t :=
  if is_zero y
  then Raise InvalidOperation
  else qr <- _divide x y ;; fix_ (snd qr).

(** An exact quotient is brought as close to the ideal exponent as its
    trailing zeros allow. *)
Fixpoint strip_zeros (fuel : nat) (coeff exp ideal_exp : Z) : Z * Z :=
  match fuel with
  | O => (coeff, exp)
  | S fuel' =>
      if (exp <? ideal_exp) && (coeff mod 10 =? 0)
      then strip_zeros fuel' (coeff / 10) (exp + 1) ideal_exp
      else (coeff, exp)
  end.

Definition truediv (x y : t) : result signal t :=
  let sign := xorb (_sign x) (_sign y) in
  if is_zero y
  then if is_zero x then Raise InvalidOperation else Raise DivisionByZero
  else if is_zero x then fix_ (mk sign 0 (_exp x - _exp y))
  else
    let shift := ndigits (_int y) - ndigits (_int x) + prec + 1 in
    let exp := _exp x - _exp y - shift in
    let op1 := Z.of_N (_int x) in
    let op2 := Z.of_N (_int y) in
    let num := if 0 <=? shift then op1 * 10 ^ shift else op1 in
    let den := if 0 <=? shift then op2 else op2 * 10 ^ (- shift) in
    let coeff := num / den in
    let remainder := num mod den in
    let '(coeff, exp) :=
      if remainder =? 0
      then strip_zeros (Z.to_nat (_exp x - _exp y - exp)) coeff exp (_exp x - _exp y)
      else (if coeff mod 5 =? 0 then coeff + 1 else coeff, exp) in
    fix_ (mk sign (Z.to_N coeff) exp).

(** [__str__] and [__repr__] of a finite decimal. *)
Fixpoint zeros (n : nat) : string :=
  match n with
  | O => EmptyString
  | S n' => String "0"%char (zeros n')
  end.

Definition str (x : t) : string :=
  let sign := if _sign x then "-"%string else EmptyString in
  let int := digits (_int x) in
  let len := Z.of_nat (String.length int) in
  let leftdigits := _exp x + len in
  let dotplace := if (_exp x <=? 0) && (-6 <? leftdigits) then leftdigits else 1 in
  let intpart :=
    if dotplace <=? 0 then "0"%string
    else if len <=? dotplace then (int ++ zeros (Z.to_nat (dotplace - len)))%string
    else substring 0 (Z.to_nat dotplace) int in
  let fracpart :=
    if dotplace <=? 0 then ("." ++ zeros (Z.to_nat (- dotplace)) ++ int)%string
    else if len <=? dotplace then EmptyString
    else ("." ++ substring (Z.to_nat dotplace) (Z.to_nat (len - dotplace)) int)%string in
  let exp :=
    if leftdigits =? dotplace then EmptyString
    else
      let e := leftdigits - dotplace in
      let plus := if e <? 0 then EmptyString else "+"%string in
      ("E" ++ plus ++ int_repr e)%string in
  (sign ++ intpart ++ fracpart ++ exp)%string.

Definition repr (x : t) : string := ("Decimal('" ++ str x ++ "')")%string.

Definition prim : DecimalPrimitive := {|
  Decimal := t;
  Signal := signal;
  Decimal_of_int := of_int;
  Decimal_repr := repr;
  Decimal_add := add;
  Decimal_sub := sub;
  Decimal_mul := mul;
  Decimal_truediv := truediv;
  Decimal_floordiv := floordiv;
  Decimal_mod := modulo;
  Decimal_divmod := divmod;
  Decimal_neg := neg;
  Decimal_pos := pos;
  Decimal_abs := abs;
  Decimal_eq := fun x y => Ok (eq x y);
  Decimal_lt := fun x y => Ok (lt x y);
  Decimal_le := fun x y => Ok (le x y);
  Decimal_gt := fun x y => Ok (gt x y);
  Decimal_ge := fun x y => Ok (ge x y)
|}.

(** The rounding step returns [x] as it is: [x] fits the precision and
    the exponent range of the context. *)
Definition unrounded (x : t) : Prop := fix_ x = Ok x.

End PyDecimal.

(** ** Concrete units: the prices of the scenarios *)

Module Pricing.

(** Modelled from the spec: the concrete subclasses of UnitedDecimal are
    not among the sources.  The scenarios name two unit variants,
    TaxfulPrice and TaxlessPrice, each a concrete type of its own. *)
Inductive price_class : Type :=
| cls_TaxfulPrice
| cls_TaxlessPrice.

(** Modelled from the spec: [type(self).__name__] of the two variants, as
    the scenarios print them. *)
Definition class_name (c : price_class) : string :=
  match c with
  | cls_TaxfulPrice => "TaxfulPrice"
  | cls_TaxlessPrice => "TaxlessPrice"
  end.

Definition same_class (c d : price_class) : bool :=
  match c, d with
  | cls_TaxfulPrice, cls_TaxfulPrice => true
  | cls_TaxlessPrice, cls_TaxlessPrice => true
  | _, _ => false
  end.

(** Modelled from the spec: the [unit_matches_with] of the price variants,
    which the sources leave abstract.  Two instances share a unit when
    they are of the same concrete variant; an operand that is no
    UnitedValue has no unit to share. *)
Definition price_unit_matches_with
  (self : @UnitedDecimal PyDecimal.prim price_class)
  (other : @pyobj PyDecimal.prim price_class) : bool :=
  match other with
  | United b => same_class (unit_of self) (unit_of b)
  | _ => false
  end.

Definition prices : @UnitFamily PyDecimal.prim := {|
  unit_tag := price_class;
  type_name := class_name;
  unit_matches_with := price_unit_matches_with
|}.

(** [Decimal(n)], [TaxfulPrice(n)] and [TaxlessPrice(n)] for an int
    literal [n]. *)
Definition Decimal_ (n : Z) : @pyobj PyDecimal.prim price_class :=
  Plain (D := PyDecimal.prim) (PyDecimal.of_int n).

Definition TaxfulPrice (n : Z) : @UnitedDecimal PyDecimal.prim price_class :=
  mkUnited (D := PyDecimal.prim) cls_TaxfulPrice (PyDecimal.of_int n).

Definition TaxlessPrice (n : Z) : @UnitedDecimal PyDecimal.prim price_class :=
  mkUnited (D := PyDecimal.prim) cls_TaxlessPrice (PyDecimal.of_int n).

End Pricing.

(** ** A unit family that lets plain numbers through

    The sources leave the matching rule to each subclass.  This family
    (measures with a named unit) treats a plain Decimal or int as
    dimensionless and compatible with every unit, so that the reflected
    methods can be run on a plain left operand. *)

Module Measures.

Definition measure_unit_matches_with
  (self : @UnitedDecimal PyDecimal.prim string)
  (other : @pyobj PyDecimal.prim string) : bool :=
  match other with
  | United b => String.eqb (unit_of self) (unit_of b)
  | Plain _ => true
  | PyInt _ => true
  | _ => false
  end.

Definition measures : @UnitFamily PyDecimal.prim := {|
  unit_tag := string;
  type_name := fun _ => "Measure";
  unit_matches_with := measure_unit_matches_with
|}.

Definition Measure (n : Z) (u : string) : @UnitedDecimal PyDecimal.prim string :=
  mkUnited (D := PyDecimal.prim) u (PyDecimal.of_int n).

End Measures.

(** ** Assumptions the properties name *)

(** The contract of [unit_matches_with]: it tests the unit of [self], not
    its magnitude, and it satisfies the post-condition documented for
    [new] (lines 50-51): if [x = y.new(v)] then [x.unit_matches_with(y)]. *)
Class UnitContract {D : DecimalPrimitive} (F : UnitFamily) : Prop := {
  matches_by_unit : forall (a b : UnitedDecimal unit_tag) (o : pyobj unit_tag),
    unit_of a = unit_of b -> unit_matches_with a o = unit_matches_with b o;
  new_postcondition : forall (y x : UnitedDecimal unit_tag) (v : pyobj unit_tag),
    new y v = Ok x -> unit_matches_with x (United y) = true
}.

(** ** A unit family with a single unit

    Every operand is taken to match: the rule a subclass would write for a
    quantity that is never mixed with another one.  It lets an operand
    that decimal cannot convert get past the unit check. *)

Module Amounts.

Definition amount_unit_matches_with
  (self : @UnitedDecimal PyDecimal.prim unit)
  (other : @pyobj PyDecimal.prim unit) : bool := true.

Definition amounts : @UnitFamily PyDecimal.prim := {|
  unit_tag := unit;
  type_name := fun _ => "Amount";
  unit_matches_with := amount_unit_matches_with
|}.

Definition Amount (n : Z) : @UnitedDecimal PyDecimal.prim unit :=
  mkUnited (D := PyDecimal.prim) tt (PyDecimal.of_int n).

End Amounts.

(** ** A helper for texts *)

(** The character [c] does not occur in [s]. *)
Fixpoint lacks (c : ascii) (s : string) : bool :=
  match s with
  | EmptyString => true
  | String c' s' => negb (Ascii.eqb c c') && lacks c s'
  end.

(** * Properties *)

(** ** The exception hierarchy *)

Lemma exc_class_eqb_refl (c : exc_class) : exc_class_eqb c c = true.
Proof. destruct c; reflexivity. Qed.

Lemma exc_class_eqb_eq (c d : exc_class) : exc_class_eqb c d = true <-> c = d.
Proof.
  split.
  - destruct c, d; simpl; intros H; try reflexivity; discriminate H.
  - intros ->. apply exc_class_eqb_refl.
Qed.

Lemma issubclass_refl (c : exc_class) : issubclass c c = true.
Proof. destruct c; reflexivity. Qed.

Lemma issubclass_base (c b d : exc_class) :
  base_class c = Some b -> issubclass b d = true -> issubclass c d = true.
Proof.
  destruct c; simpl; intros Hb; inversion Hb; subst; clear Hb;
    destruct d; simpl; intros H; try reflexivity; discriminate H.
Qed.

(** ** The unit check and the inherited methods *)

Section Properties.
Context {D : DecimalPrimitive} {F : UnitFamily}.

Local Abbreviation obj := (pyobj unit_tag).
Local Abbreviation united := (UnitedDecimal unit_tag).
Local Abbreviation outcome := (result (exn unit_tag)).

Lemma check_units_mismatch (a : united) (other : obj) :
  unit_matches_with a other = false ->
  _check_units_match a other = Raise (UnitMixupError a other "Unit mixup").
Proof. unfold _check_units_match. intros ->. reflexivity. Qed.

Lemma check_units_match (a : united) (other : obj) :
  unit_matches_with a other = true ->
  _check_units_match a other = Ok tt.
Proof. unfold _check_units_match. intros ->. reflexivity. Qed.

Lemma isinstance_UnitedDecimal_inv (other : obj) :
  isinstance_UnitedDecimal other = true -> exists b, other = United b.
Proof.
  destruct other; simpl; intros H; try discriminate H.
  eexists; reflexivity.
Qed.

Lemma new_Plain (a : united) (d : Decimal) :
  new a (Plain d) = Ok (mkUnited (unit_of a) d).
Proof. reflexivity. Qed.

Lemma new_unit (a x : united) (v : obj) : new a v = Ok x -> unit_of x = unit_of a.
Proof.
  destruct v; simpl; intros H; inversion H; reflexivity.
Qed.

(** A guard that raises hides whatever follows it. *)
Ltac mismatch H :=
  rewrite (check_units_mismatch _ _ H); reflexivity.

(** C1.  When [a.unit_matches_with(other)] is false, [a + other],
    [a - other] and the four ordering comparisons raise a UnitMixupError
    whose [obj1] is [a] and whose [obj2] is [other]; when moreover [other]
    is a UnitedDecimal (an operand that has a unit, of a different one),
    so do [a // other], [a % other] and [divmod(a, other)]. *)
Theorem mismatched_units_raise_UnitMixupError (a : united) (other : obj) :
  unit_matches_with a other = false ->
  (__add__ a other = Raise (UnitMixupError a other "Unit mixup") /\
   __sub__ a other = Raise (UnitMixupError a other "Unit mixup") /\
   __lt__ a other = Raise (UnitMixupError a other "Unit mixup") /\
   __le__ a other = Raise (UnitMixupError a other "Unit mixup") /\
   __gt__ a other = Raise (UnitMixupError a other "Unit mixup") /\
   __ge__ a other = Raise (UnitMixupError a other "Unit mixup")) /\
  (isinstance_UnitedDecimal other = true ->
   __floordiv__ a other = Raise (UnitMixupError a other "Unit mixup") /\
   __mod__ a other = Raise (UnitMixupError a other "Unit mixup") /\
   __divmod__ a other = Raise (UnitMixupError a other "Unit mixup")).
Proof.
  intros Hmis. split.
  - unfold __add__, __sub__, __lt__, __le__, __gt__, __ge__.
    repeat split; mismatch Hmis.
  - intros Hinst.
    unfold __floordiv__, __mod__, __divmod__.
    rewrite Hinst; simpl negb; cbv iota.
    repeat split; mismatch Hmis.
Qed.

(** C2.  When [a.unit_matches_with(other)] is false, whatever [other] is,
    [a == other] returns False and [a != other] returns True and nothing
    is raised; when it is true, both delegate to the comparison of
    [decimal.Decimal], which for a UnitedDecimal [other] is the equality
    of the two magnitudes and its negation. *)
Theorem eq_ne_do_not_raise_on_mismatch (a : united) (other : obj) :
  (unit_matches_with a other = false ->
   __eq__ a other = Ok (PyBool false) /\ __ne__ a other = Ok (PyBool true)) /\
  (unit_matches_with a other = true ->
   __eq__ a other = Decimal___eq__ (value a) other /\
   __ne__ a other = Decimal___ne__ (value a) other /\
   forall b, other = United b ->
     __eq__ a other = answered (Decimal_eq (value a) (value b)) /\
     __ne__ a other =
       answered (e <- Decimal_eq (value a) (value b) ;; Ok (negb e))).
Proof.
  unfold __eq__, __ne__. split; intros H; rewrite H; simpl negb; cbv iota.
  - split; reflexivity.
  - repeat split; subst other; reflexivity.
Qed.

(** C8.  Multiplying two UnitedDecimals (whether or not their units
    match), raising one to any power, and floor-dividing, taking the
    modulo or divmod of one by, or dividing into one, an operand that is
    no UnitedDecimal each raise an exception whose class is TypeError
    itself, not UnitMixupError; the outcome does not depend on
    [unit_matches_with]. *)
Theorem disallowed_operations_raise_TypeError (a : united) (other : obj) :
  (forall b : united,
     raised_class (__mul__ a (United b)) = Some cls_TypeError /\
     raised_class (__rmul__ a (United b)) = Some cls_TypeError) /\
  raised_class (__pow__ a other) = Some cls_TypeError /\
  (isinstance_UnitedDecimal other = false ->
   raised_class (__floordiv__ a other) = Some cls_TypeError /\
   raised_class (__mod__ a other) = Some cls_TypeError /\
   raised_class (__divmod__ a other) = Some cls_TypeError /\
   raised_class (__rtruediv__ a other) = Some cls_TypeError /\
   raised_class (__rfloordiv__ a other) = Some cls_TypeError).
Proof.
  split; [| split].
  - intros b. split; reflexivity.
  - reflexivity.
  - intros Hplain.
    unfold __floordiv__, __mod__, __divmod__, __rtruediv__, __rfloordiv__.
    rewrite Hplain. repeat split.
Qed.

(** C3 (amended).  In [__rtruediv__] the test "is the other operand a
    UnitedDecimal" comes first and the unit check second: an operand that
    is no UnitedDecimal always gets the generic TypeError, whatever
    [unit_matches_with] says of it; a UnitMixupError is raised only for a
    UnitedDecimal operand whose unit does not match; and a UnitedDecimal
    operand [b] of matching unit gives the decimal quotient [b / a]. *)
Theorem rtruediv_checks_the_type_first (a : united) (other : obj) :
  (isinstance_UnitedDecimal other = false ->
   __rtruediv__ a other =
     Raise (TypeError ("Cannot divide non-" ++ type_name (unit_of a)
                       ++ " with " ++ type_name (unit_of a)))) /\
  (isinstance_UnitedDecimal other = true ->
   unit_matches_with a other = false ->
   __rtruediv__ a other = Raise (UnitMixupError a other "Unit mixup")) /\
  (forall b : united,
     other = United b ->
     unit_matches_with a other = true ->
     __rtruediv__ a other = returned (Decimal_truediv (value b) (value a))).
Proof.
  unfold __rtruediv__. split; [| split].
  - intros ->. reflexivity.
  - intros -> Hmis. simpl negb; cbv iota. mismatch Hmis.
  - intros b -> Hmatch. simpl.
    rewrite (check_units_match _ _ Hmatch). reflexivity.
Qed.

(** *** What the arithmetic methods return when the checks pass *)

(** With matching units, [a + b] and [a - b] return the decimal sum and
    difference in the unit of [a]. *)
Lemma add_same_unit (a b : united) (s : Decimal) :
  unit_matches_with a (United b) = true ->
  Decimal_add (value a) (value b) = Ok s ->
  __add__ a (United b) = Ok (mkUnited (unit_of a) s).
Proof.
  intros Hmatch Hs. unfold __add__.
  rewrite (check_units_match _ _ Hmatch).
  unfold Decimal___add__, Decimal_binary. simpl. rewrite Hs. reflexivity.
Qed.

Lemma sub_same_unit (a b : united) (d : Decimal) :
  unit_matches_with a (United b) = true ->
  Decimal_sub (value a) (value b) = Ok d ->
  __sub__ a (United b) = Ok (mkUnited (unit_of a) d).
Proof.
  intros Hmatch Hd. unfold __sub__.
  rewrite (check_units_match _ _ Hmatch).
  unfold Decimal___sub__, Decimal_binary. simpl. rewrite Hd. reflexivity.
Qed.

(** With matching units, [a == b] is the answer of decimal's comparison
    of the magnitudes. *)
Lemma eq_same_unit (a b : united) (c : bool) :
  unit_matches_with a (United b) = true ->
  Decimal_eq (value a) (value b) = Ok c ->
  __eq__ a (United b) = Ok (PyBool c).
Proof.
  intros Hmatch Hc. unfold __eq__. rewrite Hmatch.
  unfold Decimal___eq__, Decimal_compare. simpl. rewrite Hc. reflexivity.
Qed.

(** With matching units, [a / b] is what the decimal division of the
    magnitudes gives: the plain quotient, or the signal. *)
Lemma truediv_same_unit (a b : united) :
  unit_matches_with a (United b) = true ->
  __truediv__ a (United b) = returned (Decimal_truediv (value a) (value b)).
Proof.
  intros Hmatch. unfold __truediv__. simpl isinstance_UnitedDecimal; cbv iota.
  rewrite (check_units_match _ _ Hmatch). reflexivity.
Qed.

(** A plain Decimal or int divisor: the quotient in the unit of [a], or
    the signal of the decimal division.  No unit check is made. *)
Lemma truediv_plain (a : united) (s : obj) (d : Decimal) :
  isinstance_UnitedDecimal s = false ->
  _convert_other s = Some d ->
  __truediv__ a s =
    match Decimal_truediv (value a) d with
    | Ok q => Ok (United (mkUnited (unit_of a) q))
    | Raise signal => Raise (DecimalException signal)
    end.
Proof.
  intros Hplain Hconv. unfold __truediv__. rewrite Hplain.
  unfold Decimal___truediv__, Decimal_binary. rewrite Hconv.
  destruct (Decimal_truediv (value a) d); reflexivity.
Qed.

Lemma unconvertible_is_plain (s : obj) :
  _convert_other s = None -> isinstance_UnitedDecimal s = false.
Proof. destruct s; try reflexivity. intros H; discriminate H. Qed.

(** A divisor or factor that decimal does not convert (a float, for one):
    the NotImplemented that Decimal returns is handed to [new], which
    raises TypeError. *)
Lemma truediv_unconvertible (a : united) (s : obj) :
  _convert_other s = None ->
  raised_class (__truediv__ a s) = Some cls_TypeError.
Proof.
  intros Hconv. unfold __truediv__.
  rewrite (unconvertible_is_plain _ Hconv).
  unfold Decimal___truediv__, Decimal_binary. rewrite Hconv. reflexivity.
Qed.

Lemma mul_plain (a : united) (s : obj) (d : Decimal) :
  isinstance_UnitedDecimal s = false ->
  _convert_other s = Some d ->
  __mul__ a s =
    match Decimal_mul (value a) d with
    | Ok p => Ok (mkUnited (unit_of a) p)
    | Raise signal => Raise (DecimalException signal)
    end.
Proof.
  intros Hplain Hconv. unfold __mul__. rewrite Hplain.
  unfold Decimal___mul__, Decimal_binary. rewrite Hconv.
  destruct (Decimal_mul (value a) d); reflexivity.
Qed.

Lemma mul_unconvertible (a : united) (s : obj) :
  _convert_other s = None ->
  raised_class (__mul__ a s) = Some cls_TypeError.
Proof.
  intros Hconv. unfold __mul__.
  rewrite (unconvertible_is_plain _ Hconv).
  unfold Decimal___mul__, Decimal_binary. rewrite Hconv. reflexivity.
Qed.

(** The three ways [__divmod__] can go. *)
Lemma divmod_cases (a : united) (other : obj) :
  (isinstance_UnitedDecimal other = false ->
   __divmod__ a other =
     Raise (TypeError ("Cannot divmod " ++ type_name (unit_of a)
                       ++ " with non-" ++ type_name (unit_of a)))) /\
  (isinstance_UnitedDecimal other = true ->
   unit_matches_with a other = false ->
   __divmod__ a other = Raise (UnitMixupError a other "Unit mixup")) /\
  (forall (b : united) (q r : Decimal),
     other = United b ->
     unit_matches_with a other = true ->
     Decimal_divmod (value a) (value b) = Ok (q, r) ->
     __divmod__ a other = Ok (Plain q, mkUnited (unit_of a) r)).
Proof.
  unfold __divmod__. split; [| split].
  - intros ->. reflexivity.
  - intros -> Hmis. simpl negb; cbv iota. mismatch Hmis.
  - intros b q r -> Hmatch Hqr. simpl negb; cbv iota.
    rewrite (check_units_match _ _ Hmatch).
    unfold Decimal___divmod__. simpl. rewrite Hqr. reflexivity.
Qed.

(** C9.  [s + a] is [a.__add__(s)] and [s - a] is [(-a).__add__(s)]: the
    reflected methods follow the contract of addition, unit check
    included.  When the plain number [s] passes the check, the result is a
    UnitedDecimal of the unit of [a] whose magnitude is the decimal sum
    [a.value + s], respectively [(-a.value) + s]; when it does not, the
    UnitMixupError of addition is raised. *)
Theorem reflected_add_sub_follow_add (a : united) (s : obj) :
  __radd__ a s = __add__ a s /\
  __rsub__ a s = (n <- __neg__ a ;; __add__ n s) /\
  (forall d p : Decimal,
     _convert_other s = Some d ->
     unit_matches_with a s = true ->
     Decimal_add (value a) d = Ok p ->
     __radd__ a s = Ok (mkUnited (unit_of a) p)) /\
  (forall d m p : Decimal,
     _convert_other s = Some d ->
     Decimal_neg (value a) = Ok m ->
     unit_matches_with (mkUnited (unit_of a) m) s = true ->
     Decimal_add m d = Ok p ->
     __rsub__ a s = Ok (mkUnited (unit_of a) p)) /\
  (unit_matches_with a s = false ->
   __radd__ a s = Raise (UnitMixupError a s "Unit mixup")) /\
  (forall m : Decimal,
     Decimal_neg (value a) = Ok m ->
     unit_matches_with (mkUnited (unit_of a) m) s = false ->
     __rsub__ a s = Raise (UnitMixupError (mkUnited (unit_of a) m) s "Unit mixup")).
Proof.
  split; [reflexivity |].
  split; [reflexivity |].
  unfold __radd__, __rsub__, __neg__, Decimal___neg__, __add__,
    Decimal___add__, Decimal_binary.
  repeat split.
  - intros d p Hconv Hmatch Hadd.
    rewrite (check_units_match _ _ Hmatch), Hconv, Hadd. reflexivity.
  - intros d m p Hconv Hneg Hmatch Hadd.
    rewrite Hneg. simpl.
    rewrite (check_units_match _ _ Hmatch), Hconv. simpl. rewrite Hadd. reflexivity.
  - intros Hmis. mismatch Hmis.
  - intros m Hneg Hmis. rewrite Hneg. simpl. mismatch Hmis.
Qed.

End Properties.

(** C10.  UnitMixupError is declared with TypeError as its base, so it is
    a subclass of TypeError: every UnitMixupError is an instance of
    TypeError and is caught by a handler for TypeError, while a plain
    TypeError is no UnitMixupError.  The two kinds of error overlap. *)
Theorem UnitMixupError_is_a_TypeError :
  base_class cls_UnitMixupError = Some cls_TypeError /\
  issubclass cls_UnitMixupError cls_TypeError = true /\
  issubclass cls_TypeError cls_UnitMixupError = false /\
  (forall (D : DecimalPrimitive) (F : UnitFamily)
          (a : UnitedDecimal unit_tag) (other : pyobj unit_tag) (msg : string),
     isinstance_exc (UnitMixupError a other msg) cls_TypeError = true /\
     isinstance_exc (UnitMixupError a other msg) cls_UnitMixupError = true /\
     forall (A : Type) (handler : exn unit_tag -> result (exn unit_tag) A),
       try_except (Raise (UnitMixupError a other msg)) cls_TypeError handler
       = handler (UnitMixupError a other msg)).
Proof.
  split; [reflexivity |].
  split.
  - apply (issubclass_base _ cls_TypeError); [reflexivity | apply issubclass_refl].
  - split; [reflexivity |].
    intros D F a other msg.
    assert (Hsub : isinstance_exc (UnitMixupError a other msg) cls_TypeError = true).
    { unfold isinstance_exc; simpl class_of.
      apply (issubclass_base _ cls_TypeError); [reflexivity | apply issubclass_refl]. }
    split; [exact Hsub |].
    split; [apply issubclass_refl |].
    intros A handler. unfold try_except. rewrite Hsub. reflexivity.
Qed.

(** ** Facts about the reference primitive *)

Section PyDecimalFacts.
Import PyDecimal.
Local Open Scope Z_scope.

Lemma signed_of_signed (zero_sign : bool) (z e : Z) :
  signed (of_signed zero_sign z e) = z.
Proof.
  unfold signed, of_signed; simpl.
  rewrite N2Z.inj_abs_N.
  destruct (Z.eqb_spec z 0) as [-> | Hz].
  - destruct zero_sign; reflexivity.
  - destruct (Z.ltb_spec z 0); lia.
Qed.

Lemma signed_copy_negate (y : t) : signed (copy_negate y) = - signed y.
Proof. unfold signed, copy_negate; simpl. destruct (_sign y); simpl; lia. Qed.

Lemma scaled_self (x : t) : scaled x (_exp x) = signed x.
Proof. unfold scaled. rewrite Z.sub_diag. simpl. lia. Qed.

(** The unrounded sum denotes the sum of the numbers, at the smaller
    exponent. *)
Lemma scaled_add (x y : t) :
  let e := Z.min (_exp x) (_exp y) in
  _exp (add_exact x y) = e /\ signed (add_exact x y) = scaled x e + scaled y e.
Proof.
  unfold add_exact. split; [reflexivity | apply signed_of_signed].
Qed.

Lemma scaled_sub (x y : t) :
  let e := Z.min (_exp x) (_exp y) in
  _exp (sub_exact x y) = e /\ signed (sub_exact x y) = scaled x e - scaled y e.
Proof.
  unfold sub_exact. destruct (scaled_add x (copy_negate y)) as [He Hs].
  change (_exp (copy_negate y)) with (_exp y) in He, Hs.
  split; [exact He |].
  rewrite Hs. unfold scaled. rewrite signed_copy_negate.
  change (_exp (copy_negate y)) with (_exp y). lia.
Qed.

(** Two decimals with the same exponent and signed coefficient are equal
    numbers. *)
Lemma eq_of_number (x y : t) :
  _exp x = _exp y -> signed x = signed y -> eq x y = true.
Proof.
  intros He Hs. unfold eq, cmp, scaled.
  rewrite He, Hs, Z.compare_refl. reflexivity.
Qed.

(** Without rounding, taking away what was added gives back an equal
    number. *)
Lemma sub_add_cancel_exact (x y : t) :
  eq (sub_exact (add_exact x y) y) x = true.
Proof.
  destruct (scaled_add x y) as [He Hs].
  destruct (scaled_sub (add_exact x y) y) as [Hde Hd].
  cbv zeta in He, Hs, Hde, Hd.
  set (e := Z.min (_exp x) (_exp y)) in *.
  assert (Hey : Z.min (_exp (add_exact x y)) (_exp y) = e)
    by (rewrite He; unfold e; lia).
  rewrite Hey in Hde, Hd.
  assert (Hnum : signed (sub_exact (add_exact x y) y) = scaled x e).
  { rewrite Hd. unfold scaled at 1. rewrite Hs, He, Z.sub_diag.
    change (10 ^ 0) with 1. lia. }
  unfold eq, cmp.
  replace (Z.min (_exp (sub_exact (add_exact x y) y)) (_exp x)) with e
    by (rewrite Hde; unfold e; lia).
  unfold scaled at 1. rewrite Hnum, Hde, Z.sub_diag.
  change (10 ^ 0) with 1.
  rewrite Z.mul_1_r, Z.compare_refl. reflexivity.
Qed.

(** The rounding step either returns or raises Overflow. *)
Lemma fix_cases (x : t) : (exists y, fix_ x = Ok y) \/ fix_ x = Raise Overflow.
Proof.
  unfold fix_. cbv zeta.
  repeat match goal with
         | |- context [if ?c then Raise Overflow else _] => destruct c
         | |- context [if ?c then Ok _ else _] => destruct c
         | |- context [if ?c then _ else Ok _] => destruct c
         end;
    try (right; reflexivity); left; eexists; reflexivity.
Qed.

Lemma nonzero_of_ne_zero (y : t) : eq y (of_int 0) = false -> is_zero y = false.
Proof.
  intros Hne. destruct (is_zero y) eqn:Hz; [| reflexivity].
  apply N.eqb_eq in Hz.
  unfold eq, cmp, scaled, signed in Hne. rewrite Hz in Hne. simpl in Hne.
  destruct (_sign y); simpl in Hne; discriminate Hne.
Qed.

Lemma zero_of_eq_zero (y : t) : eq y (of_int 0) = true -> is_zero y = true.
Proof.
  intros Heq. unfold is_zero. apply N.eqb_eq.
  unfold eq, cmp in Heq.
  destruct (Z.compare_spec (scaled y (Z.min (_exp y) (_exp (of_int 0))))
              (scaled (of_int 0) (Z.min (_exp y) (_exp (of_int 0)))))
    as [H | H | H]; try discriminate Heq.
  unfold scaled, signed in H. simpl in H.
  assert (Hpow : 0 < 10 ^ (_exp y - Z.min (_exp y) 0))
    by (apply Z.pow_pos_nonneg; lia).
  destruct (_sign y); nia.
Qed.

(** What a true division does: a zero divisor raises DivisionByZero, or
    InvalidOperation for 0 / 0; any other divisor gives a quotient, unless
    the quotient overflows. *)
Lemma truediv_outcomes (x y : t) :
  (is_zero y = true ->
   truediv x y = Raise (if is_zero x then InvalidOperation else DivisionByZero)) /\
  (is_zero y = false ->
   (exists q, truediv x y = Ok q) \/ truediv x y = Raise Overflow).
Proof.
  unfold truediv. split; intros Hy; rewrite Hy.
  - destruct (is_zero x); reflexivity.
  - destruct (is_zero x); [apply fix_cases |].
    cbv zeta.
    match goal with
    | |- context [let '(c, e) := ?scrutinee in _] => destruct scrutinee
    end.
    apply fix_cases.
Qed.

End PyDecimalFacts.

(** ** The unit families keep the contract *)

Lemma same_class_refl (c : Pricing.price_class) : Pricing.same_class c c = true.
Proof. destruct c; reflexivity. Qed.

Lemma prices_contract : UnitContract Pricing.prices.
Proof.
  constructor.
  - intros a b o Hab.
    destruct o as [d | c | z | t | d r | d r | | r]; try reflexivity.
    cbn in Hab |- *. rewrite Hab. reflexivity.
  - intros y x v Hnew.
    pose proof (new_unit y x v Hnew) as Hunit.
    cbn in Hunit |- *. rewrite Hunit. apply same_class_refl.
Qed.

(** ** The scenarios, run on the reference instances *)

Section Scenarios.
Import Pricing Measures.

Local Abbreviation price := (@UnitedDecimal PyDecimal.prim price_class).
Local Abbreviation taxful n := (TaxfulPrice n : @UnitedDecimal PyDecimal.prim (@unit_tag _ prices)).
Local Abbreviation taxless n := (TaxlessPrice n : @UnitedDecimal PyDecimal.prim (@unit_tag _ prices)).
Local Abbreviation plain n := (Decimal_ n : @pyobj PyDecimal.prim (@unit_tag _ prices)).
Local Abbreviation kg n := (Measure n "kg" : @UnitedDecimal PyDecimal.prim (@unit_tag _ measures)).
Local Abbreviation float_1_5 :=
  (PyFloat (D := PyDecimal.prim) (PyDecimal.mk false 15 (-1)) "1.5"
   : @pyobj PyDecimal.prim (@unit_tag _ prices)).

(** C7.  [divmod(a, other)] raises the generic TypeError when [other] is
    no UnitedDecimal and a UnitMixupError when it is one of another unit;
    for a UnitedDecimal [b] of matching unit it returns the pair of the
    plain decimal quotient and the remainder as a UnitedDecimal of the
    unit of [a].  In particular [divmod(TaxfulPrice(7), TaxfulPrice(2))]
    returns [(Decimal(3), TaxfulPrice(1))]. *)
Theorem divmod_contract :
  (forall (D : DecimalPrimitive) (F : UnitFamily)
          (a : UnitedDecimal unit_tag) (other : pyobj unit_tag),
     (isinstance_UnitedDecimal other = false ->
      __divmod__ a other =
        Raise (TypeError ("Cannot divmod " ++ type_name (unit_of a)
                          ++ " with non-" ++ type_name (unit_of a)))) /\
     (isinstance_UnitedDecimal other = true ->
      unit_matches_with a other = false ->
      __divmod__ a other = Raise (UnitMixupError a other "Unit mixup")) /\
     (forall (b : UnitedDecimal unit_tag) (q r : Decimal),
        other = United b ->
        unit_matches_with a other = true ->
        Decimal_divmod (value a) (value b) = Ok (q, r) ->
        __divmod__ a other = Ok (Plain q, mkUnited (unit_of a) r))) /\
  __divmod__ (taxful 7) (United (taxful 2)) = Ok (plain 3, taxful 1).
Proof.
  split.
  - intros D F a other. apply divmod_cases.
  - reflexivity.
Qed.

Lemma divmod_contract_witness :
  __divmod__ (taxful 7) (PyInt 2)
    = Raise (TypeError "Cannot divmod TaxfulPrice with non-TaxfulPrice") /\
  __divmod__ (taxful 7) (United (taxless 2))
    = Raise (UnitMixupError (taxful 7) (United (taxless 2)) "Unit mixup") /\
  __divmod__ (taxful 7) (United (taxful 2)) = Ok (plain 3, taxful 1).
Proof.
  destruct divmod_contract as [Hgeneral Hscenario].
  split; [| split].
  - apply (Hgeneral PyDecimal.prim prices (taxful 7) (PyInt 2)). reflexivity.
  - apply (Hgeneral PyDecimal.prim prices (taxful 7) (United (taxless 2)));
      reflexivity.
  - exact Hscenario.
Defined.

Lemma mismatched_units_witness :
  unit_matches_with (taxful 10) (United (taxless 2)) = false /\
  __add__ (taxful 10) (United (taxless 2))
    = Raise (UnitMixupError (taxful 10) (United (taxless 2)) "Unit mixup") /\
  __lt__ (taxful 10) (United (taxless 2))
    = Raise (UnitMixupError (taxful 10) (United (taxless 2)) "Unit mixup") /\
  __mod__ (taxful 10) (United (taxless 2))
    = Raise (UnitMixupError (taxful 10) (United (taxless 2)) "Unit mixup").
Proof.
  split; [reflexivity |].
  destruct (mismatched_units_raise_UnitMixupError
              (taxful 10) (United (taxless 2)) eq_refl)
    as [(Hadd & _ & Hlt & _) Hdiv].
  destruct (Hdiv eq_refl) as (_ & Hmod & _).
  split; [exact Hadd | split; [exact Hlt | exact Hmod]].
Defined.

Lemma eq_ne_witness :
  (unit_matches_with (taxful 10) (PyInt 10) = false /\
   __eq__ (taxful 10) (PyInt 10) = Ok (PyBool false) /\
   __ne__ (taxful 10) (PyInt 10) = Ok (PyBool true)) /\
  (unit_matches_with (taxful 10) (United (taxful 10)) = true /\
   __eq__ (taxful 10) (United (taxful 10))
     = Decimal___eq__ (value (taxful 10)) (United (taxful 10))).
Proof.
  split.
  - split; [reflexivity |].
    exact (proj1 (eq_ne_do_not_raise_on_mismatch (taxful 10) (PyInt 10)) eq_refl).
  - split; [reflexivity |].
    exact (proj1 (proj2 (eq_ne_do_not_raise_on_mismatch
                           (taxful 10) (United (taxful 10))) eq_refl)).
Defined.

(** C3, as stated, fails: for [Decimal(5) / TaxfulPrice(10)] both tests
    fail (the operand is no UnitedDecimal and its unit does not match),
    and what is raised is the generic TypeError, not the UnitMixupError
    that a unit check made first would raise. *)
Lemma rtruediv_unit_check_is_not_first :
  isinstance_UnitedDecimal (plain 5) = false /\
  unit_matches_with (taxful 10) (plain 5) = false /\
  __rtruediv__ (taxful 10) (plain 5)
    = Raise (TypeError "Cannot divide non-TaxfulPrice with TaxfulPrice") /\
  __rtruediv__ (taxful 10) (plain 5)
    <> Raise (UnitMixupError (taxful 10) (plain 5) "Unit mixup").
Proof.
  repeat split. intros H. discriminate H.
Qed.

Lemma rtruediv_witness :
  (isinstance_UnitedDecimal (plain 5) = false /\
   __rtruediv__ (taxful 10) (plain 5)
     = Raise (TypeError "Cannot divide non-TaxfulPrice with TaxfulPrice")) /\
  (unit_matches_with (taxful 10) (United (taxless 5)) = false /\
   __rtruediv__ (taxful 10) (United (taxless 5))
     = Raise (UnitMixupError (taxful 10) (United (taxless 5)) "Unit mixup")) /\
  (unit_matches_with (taxful 10) (United (taxful 5)) = true /\
   __rtruediv__ (taxful 10) (United (taxful 5))
     = Ok (Plain (D := PyDecimal.prim) (PyDecimal.mk false 5 (-1)))).
Proof.
  split; [| split]; (split; [reflexivity |]).
  - exact (proj1 (rtruediv_checks_the_type_first (taxful 10) (plain 5)) eq_refl).
  - exact (proj1 (proj2 (rtruediv_checks_the_type_first
                           (taxful 10) (United (taxless 5)))) eq_refl eq_refl).
  - exact (proj2 (proj2 (rtruediv_checks_the_type_first
                           (taxful 10) (United (taxful 5))))
             (taxful 5) eq_refl eq_refl).
Defined.

(** C4 (amended).  For two UnitedDecimals of matching unit, [a + b] and
    [a - b] are what decimal makes of the magnitudes: the sum or the
    difference, in the unit of [a], or the signal of the arithmetic.  For
    finite magnitudes in the default context the sum and the difference
    are returned unless they overflow, and [(a + b) - b == a] returns True
    whenever decimal rounds neither the sum [a + b] nor the difference
    taken from it. *)
Theorem add_sub_same_unit :
  (forall (D : DecimalPrimitive) (F : UnitFamily) (a b : UnitedDecimal unit_tag),
     unit_matches_with a (United b) = true ->
     __add__ a (United b) =
       match Decimal_add (value a) (value b) with
       | Ok s => Ok (mkUnited (unit_of a) s)
       | Raise signal => Raise (DecimalException signal)
       end /\
     __sub__ a (United b) =
       match Decimal_sub (value a) (value b) with
       | Ok d => Ok (mkUnited (unit_of a) d)
       | Raise signal => Raise (DecimalException signal)
       end) /\
  (forall x y : PyDecimal.t,
     ((exists s, PyDecimal.add x y = Ok s) \/
      PyDecimal.add x y = Raise PyDecimal.Overflow) /\
     ((exists d, PyDecimal.sub x y = Ok d) \/
      PyDecimal.sub x y = Raise PyDecimal.Overflow)) /\
  (forall (F : @UnitFamily PyDecimal.prim) (a b : UnitedDecimal unit_tag),
     UnitContract F ->
     unit_matches_with a (United b) = true ->
     PyDecimal.unrounded (PyDecimal.add_exact (value a) (value b)) ->
     PyDecimal.unrounded
       (PyDecimal.sub_exact (PyDecimal.add_exact (value a) (value b)) (value b)) ->
     exists s r : UnitedDecimal unit_tag,
       __add__ a (United b) = Ok s /\ unit_of s = unit_of a /\
       __sub__ s (United b) = Ok r /\ unit_of r = unit_of a /\
       __eq__ r (United a) = Ok (PyBool true)).
Proof.
  split; [| split].
  - intros D F a b Hmatch. unfold __add__, __sub__.
    rewrite (check_units_match _ _ Hmatch).
    unfold Decimal___add__, Decimal___sub__, Decimal_binary. simpl.
    split.
    + destruct (Decimal_add (value a) (value b)); reflexivity.
    + destruct (Decimal_sub (value a) (value b)); reflexivity.
  - intros x y. split; apply fix_cases.
  - intros F a b Hunits Hmatch Hsum Hback.
    set (sv := PyDecimal.add_exact (value a) (value b)) in *.
    set (rv := PyDecimal.sub_exact sv (value b)) in *.
    set (s := mkUnited (D := PyDecimal.prim) (unit_of a) sv).
    set (r := mkUnited (D := PyDecimal.prim) (unit_of a) rv).
    assert (Hsb : unit_matches_with s (United b) = true).
    { rewrite (matches_by_unit s a (United b) eq_refl). exact Hmatch. }
    assert (Hra : unit_matches_with r (United a) = true).
    { apply (new_postcondition a r (Plain (D := PyDecimal.prim) rv)). reflexivity. }
    exists s, r.
    split; [exact (add_same_unit a b sv Hmatch Hsum) |].
    split; [reflexivity |].
    split; [exact (sub_same_unit s b rv Hsb Hback) |].
    split; [reflexivity |].
    apply (eq_same_unit r a true Hra).
    exact (f_equal (fun c => @Ok PyDecimal.signal bool c)
             (sub_add_cancel_exact (value a) (value b))).
Qed.

(** C4, as stated, fails: [TaxfulPrice(10**28 + 1) + TaxfulPrice(1)] is
    rounded to 28 digits, and taking the 1 away again does not give back
    the first operand. *)
Lemma add_sub_round_trip_fails_when_rounded :
  unit_matches_with (taxful (10 ^ 28 + 1)) (United (taxful 1)) = true /\
  __add__ (taxful (10 ^ 28 + 1)) (United (taxful 1))
    = Ok (mkUnited (D := PyDecimal.prim) cls_TaxfulPrice
            (PyDecimal.mk false 1000000000000000000000000000 1)) /\
  __sub__ (F := prices)
      (mkUnited (D := PyDecimal.prim) cls_TaxfulPrice
         (PyDecimal.mk false 1000000000000000000000000000 1))
      (United (taxful 1))
    = Ok (mkUnited (D := PyDecimal.prim) cls_TaxfulPrice
            (PyDecimal.mk false 9999999999999999999999999999 0)) /\
  __eq__ (F := prices)
      (mkUnited (D := PyDecimal.prim) cls_TaxfulPrice
         (PyDecimal.mk false 9999999999999999999999999999 0))
      (United (taxful (10 ^ 28 + 1)))
    = Ok (PyBool false).
Proof.
  split; [reflexivity |].
  split; [| split].
  - apply (add_same_unit (F := prices)); [reflexivity |].
    change (PyDecimal.add (PyDecimal.of_int (10 ^ 28 + 1)) (PyDecimal.of_int 1)
            = Ok (PyDecimal.mk false 1000000000000000000000000000 1)).
    vm_compute. reflexivity.
  - apply (sub_same_unit (F := prices)); [reflexivity |].
    change (PyDecimal.sub (PyDecimal.mk false 1000000000000000000000000000 1)
              (PyDecimal.of_int 1)
            = Ok (PyDecimal.mk false 9999999999999999999999999999 0)).
    vm_compute. reflexivity.
  - apply (eq_same_unit (F := prices)); [reflexivity |].
    change (@Ok PyDecimal.signal bool
              (PyDecimal.eq (PyDecimal.mk false 9999999999999999999999999999 0)
                 (PyDecimal.of_int (10 ^ 28 + 1)))
            = Ok false).
    vm_compute. reflexivity.
Qed.

Lemma add_sub_same_unit_witness :
  unit_matches_with (taxful 10) (United (taxful 2)) = true /\
  PyDecimal.unrounded
    (PyDecimal.add_exact (value (taxful 10)) (value (taxful 2))) /\
  PyDecimal.unrounded
    (PyDecimal.sub_exact
       (PyDecimal.add_exact (value (taxful 10)) (value (taxful 2)))
       (value (taxful 2))) /\
  __add__ (taxful 10) (United (taxful 2)) = Ok (taxful 12) /\
  exists s r : price,
    __add__ (taxful 10) (United (taxful 2)) = Ok s /\
    __sub__ (F := prices) s (United (taxful 2)) = Ok r /\
    __eq__ (F := prices) r (United (taxful 10)) = Ok (PyBool true).
Proof.
  destruct add_sub_same_unit as (Hgeneral & _ & Hexact).
  split; [reflexivity | split; [reflexivity | split; [reflexivity |]]].
  split.
  - exact (proj1 (Hgeneral PyDecimal.prim prices (taxful 10) (taxful 2) eq_refl)).
  - destruct (Hexact prices (taxful 10) (taxful 2) prices_contract
                eq_refl eq_refl eq_refl)
      as (s & r & Hadd & _ & Hsub & _ & Heq).
    exists s, r. split; [exact Hadd | split; [exact Hsub | exact Heq]].
Defined.

(** C5 (amended).  For two UnitedDecimals of matching unit, [a / b] is
    what the decimal division of the magnitudes gives: the plain quotient
    [a.value / b.value], or its signal.  For a plain Decimal or int [s],
    [a / s] is the quotient [a.value / s] in the unit of [a], or the signal
    of that division; no unit check is made.  A divisor that decimal does
    not convert (a float) raises TypeError.  For finite magnitudes in the
    default context the division raises DivisionByZero for a zero divisor
    (InvalidOperation for 0 / 0) and returns for every other divisor,
    unless the quotient overflows. *)
Theorem truediv_cancels_or_keeps_the_unit :
  (forall (D : DecimalPrimitive) (F : UnitFamily) (a : UnitedDecimal unit_tag),
     (forall b : UnitedDecimal unit_tag,
        unit_matches_with a (United b) = true ->
        __truediv__ a (United b)
          = returned (Decimal_truediv (value a) (value b))) /\
     (forall (s : pyobj unit_tag) (d : Decimal),
        isinstance_UnitedDecimal s = false ->
        _convert_other s = Some d ->
        __truediv__ a s =
          match Decimal_truediv (value a) d with
          | Ok q => Ok (United (mkUnited (unit_of a) q))
          | Raise signal => Raise (DecimalException signal)
          end) /\
     (forall s : pyobj unit_tag,
        _convert_other s = None ->
        raised_class (__truediv__ a s) = Some cls_TypeError)) /\
  (forall x y : PyDecimal.t,
     (PyDecimal.eq y (PyDecimal.of_int 0) = true ->
      PyDecimal.truediv x y
        = Raise (if PyDecimal.is_zero x
                 then PyDecimal.InvalidOperation
                 else PyDecimal.DivisionByZero)) /\
     (PyDecimal.eq y (PyDecimal.of_int 0) = false ->
      (exists q, PyDecimal.truediv x y = Ok q) \/
      PyDecimal.truediv x y = Raise PyDecimal.Overflow)).
Proof.
  split.
  - intros D F a. split; [| split].
    + intros b. apply truediv_same_unit.
    + intros s d. apply truediv_plain.
    + intros s. apply truediv_unconvertible.
  - intros x y. destruct (truediv_outcomes x y) as [Hzero Hnonzero]. split.
    + intros Hy. apply Hzero, zero_of_eq_zero, Hy.
    + intros Hy. apply Hnonzero, nonzero_of_ne_zero, Hy.
Qed.

(** C5, as stated, fails: dividing by the plain number zero does not
    succeed, [TaxfulPrice(1) / Decimal(0)] raises DivisionByZero. *)
Lemma truediv_by_plain_zero_raises :
  isinstance_UnitedDecimal (plain 0) = false /\
  __truediv__ (taxful 1) (plain 0)
    = Raise (DecimalException (D := PyDecimal.prim) PyDecimal.DivisionByZero).
Proof. split; reflexivity. Qed.

Lemma truediv_witness :
  (unit_matches_with (taxful 10) (United (taxful 4)) = true /\
   __truediv__ (taxful 10) (United (taxful 4))
     = Ok (Plain (D := PyDecimal.prim) (PyDecimal.mk false 25 (-1)))) /\
  (isinstance_UnitedDecimal (plain 4) = false /\
   __truediv__ (taxful 10) (plain 4)
     = Ok (United (mkUnited (D := PyDecimal.prim) cls_TaxfulPrice
                     (PyDecimal.mk false 25 (-1))))) /\
  raised_class (__truediv__ (taxful 10) float_1_5) = Some cls_TypeError.
Proof.
  destruct truediv_cancels_or_keeps_the_unit as [Hgeneral _].
  destruct (Hgeneral PyDecimal.prim prices (taxful 10))
    as (Hsame & Hplain & Hfloat).
  split; [| split].
  - split; [reflexivity |]. exact (Hsame (taxful 4) eq_refl).
  - split; [reflexivity |].
    exact (Hplain (plain 4) (PyDecimal.of_int 4) eq_refl eq_refl).
  - exact (Hfloat float_1_5 eq_refl).
Defined.

(** C6 (amended).  For a plain scalar [s] that is a Decimal or an int,
    [a * s] and [s * a] are the same call and give [a.new(p)], of the unit
    of [a], for the decimal product [p] of [a.value] and [s], or the signal
    of that product.  A scalar that decimal does not convert (a float)
    raises TypeError.  For finite magnitudes in the default context the
    product is returned unless it overflows. *)
Theorem mul_by_scalar_keeps_the_unit :
  (forall (D : DecimalPrimitive) (F : UnitFamily)
          (a : UnitedDecimal unit_tag) (s : pyobj unit_tag),
     __rmul__ a s = __mul__ a s /\
     (forall d : Decimal,
        isinstance_UnitedDecimal s = false ->
        _convert_other s = Some d ->
        __mul__ a s =
          match Decimal_mul (value a) d with
          | Ok p => Ok (mkUnited (unit_of a) p)
          | Raise signal => Raise (DecimalException signal)
          end /\
        forall p : Decimal,
          Decimal___mul__ (value a) s = Ok (Plain p) ->
          __mul__ a s = new a (Plain p) /\
          new a (Plain p) = Ok (mkUnited (unit_of a) p)) /\
     (_convert_other s = None ->
      raised_class (__mul__ a s) = Some cls_TypeError)) /\
  (forall x y : PyDecimal.t,
     (exists p, PyDecimal.mul x y = Ok p) \/
     PyDecimal.mul x y = Raise PyDecimal.Overflow).
Proof.
  split.
  - intros D F a s. split; [reflexivity | split].
    + intros d Hplain Hconv. split; [apply mul_plain; assumption |].
      intros p Hp. unfold __mul__. rewrite Hplain, Hp. split; reflexivity.
    + apply mul_unconvertible.
  - intros x y. apply fix_cases.
Qed.

(** C6, as stated, fails: a float is a plain scalar, and
    [TaxfulPrice(10) * 1.5] raises TypeError. *)
Lemma mul_by_float_raises :
  isinstance_UnitedDecimal float_1_5 = false /\
  raised_class (__mul__ (taxful 10) float_1_5) = Some cls_TypeError /\
  raised_class (__rmul__ (taxful 10) float_1_5) = Some cls_TypeError.
Proof. repeat split. Qed.

Lemma mul_by_scalar_witness :
  isinstance_UnitedDecimal (PyInt 3 : pyobj (@unit_tag _ prices)) = false /\
  __mul__ (taxful 10) (PyInt 3) = Ok (taxful 30) /\
  __rmul__ (taxful 10) (PyInt 3) = __mul__ (taxful 10) (PyInt 3).
Proof.
  destruct mul_by_scalar_keeps_the_unit as [Hgeneral _].
  destruct (Hgeneral PyDecimal.prim prices (taxful 10) (PyInt 3))
    as (Hrmul & Hmul & _).
  split; [reflexivity |].
  split; [exact (proj1 (Hmul (PyDecimal.of_int 3) eq_refl eq_refl)) | exact Hrmul].
Defined.

Lemma disallowed_operations_witness :
  raised_class (__mul__ (taxful 10) (United (taxful 2))) = Some cls_TypeError /\
  raised_class (__pow__ (taxful 10) (PyInt 2)) = Some cls_TypeError /\
  isinstance_UnitedDecimal (PyInt 2 : pyobj (@unit_tag _ prices)) = false /\
  raised_class (__floordiv__ (taxful 10) (PyInt 2)) = Some cls_TypeError /\
  raised_class (__rtruediv__ (taxful 10) (PyInt 2)) = Some cls_TypeError.
Proof.
  destruct (disallowed_operations_raise_TypeError (taxful 10) (PyInt 2))
    as (Hmul & Hpow & Hplain).
  destruct (Hplain eq_refl) as (Hfloor & _ & _ & Hrdiv & _).
  split; [exact (proj1 (Hmul (taxful 2))) |].
  split; [exact Hpow |].
  split; [reflexivity |].
  split; [exact Hfloor | exact Hrdiv].
Defined.

Lemma reflected_add_sub_witness :
  (unit_matches_with (kg 10) (PyInt 3) = true /\
   __radd__ (kg 10) (PyInt 3) = Ok (kg 13) /\
   __rsub__ (kg 10) (PyInt 3) = Ok (kg (-7))) /\
  (unit_matches_with (taxful 10) (PyInt 3) = false /\
   __radd__ (taxful 10) (PyInt 3)
     = Raise (UnitMixupError (taxful 10) (PyInt 3) "Unit mixup") /\
   __rsub__ (taxful 10) (PyInt 3)
     = Raise (UnitMixupError (taxful (-10)) (PyInt 3) "Unit mixup")).
Proof.
  destruct (reflected_add_sub_follow_add (kg 10) (PyInt 3))
    as (_ & _ & Hradd & Hrsub & _).
  destruct (reflected_add_sub_follow_add (taxful 10) (PyInt 3))
    as (_ & _ & _ & _ & Hradd' & Hrsub').
  split; (split; [reflexivity |]); split.
  - exact (Hradd (PyDecimal.of_int 3) (PyDecimal.of_int 13) eq_refl eq_refl eq_refl).
  - exact (Hrsub (PyDecimal.of_int 3) (PyDecimal.of_int (-10)) (PyDecimal.of_int (-7))
             eq_refl eq_refl eq_refl eq_refl).
  - exact (Hradd' eq_refl).
  - exact (Hrsub' (PyDecimal.of_int (-10)) eq_refl eq_refl).
Defined.

(** The error text of the first scenario names both operands. *)
Example unit_mixup_text :
  match __add__ (taxful 10) (United (taxless 2)) with
  | Raise e => exn___str__ e
  | Ok _ => ""
  end = "Unit mixup: TaxfulPrice('10') vs TaxlessPrice('2')".
Proof. reflexivity. Qed.

End Scenarios.

(** * Further properties of the methods *)

Lemma bind_Ok_inv {E A B : Type} (r : result E A) (k : A -> result E B) (b : B) :
  bind r k = Ok b -> exists a, r = Ok a /\ k a = Ok b.
Proof.
  destruct r as [a | e]; simpl; intros H; [| discriminate H].
  exists a. split; [reflexivity | exact H].
Qed.

(** *** [str.replace] *)

Lemma prefix_lacks (c0 : ascii) (old' s : string) :
  lacks c0 s = true -> String.prefix (String c0 old') s = false.
Proof.
  destruct s as [| c s']; simpl; [reflexivity |].
  intros H. apply andb_true_iff in H. destruct H as [Hc _].
  destruct (ascii_dec c0 c) as [-> | _]; [| reflexivity].
  rewrite Ascii.eqb_refl in Hc. discriminate Hc.
Qed.

(** Nothing is replaced in a text in which the first character of [old]
    does not occur. *)
Lemma str_replace_lacks (c0 : ascii) (old' new s : string) :
  lacks c0 s = true -> str_replace (String c0 old') new s = s.
Proof.
  unfold str_replace. induction s as [| c s' IH]; [reflexivity |].
  intros H. change (replace_from (String c0 old') new 0 (String c s'))
    with (if String.prefix (String c0 old') (String c s')
          then new ++ replace_from (String c0 old') new
                        (String.length (String c0 old') - 1) s'
          else String c (replace_from (String c0 old') new 0 s')).
  rewrite (prefix_lacks _ _ _ H).
  simpl in H. apply andb_true_iff in H. destruct H as [_ H].
  rewrite (IH H). reflexivity.
Qed.

Lemma prefix_app (s rest : string) : String.prefix s (s ++ rest) = true.
Proof.
  induction s as [| c s IH]; simpl.
  - destruct rest; reflexivity.
  - destruct (ascii_dec c c) as [_ | Hneq]; [exact IH | destruct Hneq; reflexivity].
Qed.

Lemma replace_from_skip (old new t rest : string) :
  replace_from old new (String.length t) (t ++ rest) = replace_from old new 0 rest.
Proof.
  induction t as [| c t IH]; simpl; [reflexivity | exact IH].
Qed.

(** A leading occurrence of [old] becomes [new], and the search goes on
    behind it. *)
Lemma str_replace_leading (c0 : ascii) (old' new rest : string) :
  str_replace (String c0 old') new (String c0 old' ++ rest)
  = new ++ str_replace (String c0 old') new rest.
Proof.
  unfold str_replace.
  change (replace_from (String c0 old') new 0 (String c0 old' ++ rest))
    with (if String.prefix (String c0 old') (String c0 old' ++ rest)
          then new ++ replace_from (String c0 old') new
                        (String.length (String c0 old') - 1) (old' ++ rest)
          else String c0 (replace_from (String c0 old') new 0 (old' ++ rest))).
  rewrite prefix_app.
  replace (String.length (String c0 old') - 1) with (String.length old')
    by (simpl; lia).
  rewrite replace_from_skip. reflexivity.
Qed.

Section FurtherProperties.
Context {D : DecimalPrimitive} {F : UnitFamily}.

Local Abbreviation obj := (pyobj unit_tag).
Local Abbreviation united := (UnitedDecimal unit_tag).
Local Abbreviation outcome := (result (exn unit_tag)).

(** A value that came out of [new] has the unit of [self]. *)
Ltac through_new H :=
  repeat (apply bind_Ok_inv in H; destruct H as (? & _ & H));
  exact (new_unit _ _ _ H).

Lemma add_keeps_unit (a u : united) (other : obj) :
  __add__ a other = Ok u -> unit_of u = unit_of a.
Proof. unfold __add__. intros H. through_new H. Qed.

Lemma neg_keeps_unit (a u : united) : __neg__ a = Ok u -> unit_of u = unit_of a.
Proof. unfold __neg__. intros H. through_new H. Qed.

Lemma mul_keeps_unit (a u : united) (other : obj) :
  __mul__ a other = Ok u -> unit_of u = unit_of a.
Proof.
  unfold __mul__. destruct (isinstance_UnitedDecimal other); intros H;
    [discriminate H | through_new H].
Qed.

Lemma Decimal_binary_not_United
  (op : Decimal -> Decimal -> result Signal Decimal)
  (x : Decimal) (other : obj) (u : united) :
  Decimal_binary op x other <> Ok (United u).
Proof.
  unfold Decimal_binary, returned.
  destruct (_convert_other other); [destruct (op x d) |]; discriminate.
Qed.

(** X1.  No method changes the unit: whenever [a + other], [a - other],
    [a * other], the reflected three, [a % other], [-a], [+a] or [abs(a)]
    returns, the result has the unit of [a]; so has a UnitedDecimal that
    [a / other] returns, and the remainder of [divmod(a, other)]. *)
Theorem results_keep_the_unit (a : united) (other : obj) :
  (forall u, __add__ a other = Ok u -> unit_of u = unit_of a) /\
  (forall u, __sub__ a other = Ok u -> unit_of u = unit_of a) /\
  (forall u, __mul__ a other = Ok u -> unit_of u = unit_of a) /\
  (forall u, __radd__ a other = Ok u -> unit_of u = unit_of a) /\
  (forall u, __rsub__ a other = Ok u -> unit_of u = unit_of a) /\
  (forall u, __rmul__ a other = Ok u -> unit_of u = unit_of a) /\
  (forall u, __mod__ a other = Ok u -> unit_of u = unit_of a) /\
  (forall u, __neg__ a = Ok u -> unit_of u = unit_of a) /\
  (forall u, __pos__ a = Ok u -> unit_of u = unit_of a) /\
  (forall u, __abs__ a = Ok u -> unit_of u = unit_of a) /\
  (forall u, __truediv__ a other = Ok (United u) -> unit_of u = unit_of a) /\
  (forall q u, __divmod__ a other = Ok (q, u) -> unit_of u = unit_of a).
Proof.
  split; [intros u; apply add_keeps_unit |].
  split; [intros u H; unfold __sub__ in H; through_new H |].
  split; [intros u; apply mul_keeps_unit |].
  split; [intros u; apply add_keeps_unit |].
  split.
  { intros u H. unfold __rsub__ in H.
    apply bind_Ok_inv in H. destruct H as (n & Hn & H).
    rewrite (add_keeps_unit _ _ _ H). exact (neg_keeps_unit _ _ Hn). }
  split; [intros u; apply mul_keeps_unit |].
  split.
  { intros u. unfold __mod__.
    destruct (negb (isinstance_UnitedDecimal other)); intros H;
      [discriminate H | through_new H]. }
  split; [intros u; apply neg_keeps_unit |].
  split; [intros u H; unfold __pos__ in H; through_new H |].
  split; [intros u H; unfold __abs__ in H; through_new H |].
  split.
  { intros u. unfold __truediv__.
    destruct (isinstance_UnitedDecimal other); intros H.
    - apply bind_Ok_inv in H. destruct H as (_ & _ & H).
      apply Decimal_binary_not_United in H. destruct H.
    - apply bind_Ok_inv in H. destruct H as (v & _ & H).
      apply bind_Ok_inv in H. destruct H as (w & Hw & H).
      inversion H; subst. exact (new_unit _ _ _ Hw). }
  intros q u. unfold __divmod__.
  destruct (negb (isinstance_UnitedDecimal other)); intros H; [discriminate H |].
  apply bind_Ok_inv in H. destruct H as (_ & _ & H).
  apply bind_Ok_inv in H. destruct H as (t & _ & H).
  destruct t as [[div rem] |]; [| discriminate H].
  apply bind_Ok_inv in H. destruct H as (m & Hm & H).
  inversion H; subst. exact (new_unit _ _ _ Hm).
Qed.

(** *** When a UnitMixupError is raised *)

Ltac open_method H :=
  unfold __radd__, __rmul__, __lt__, __le__, __gt__, __ge__,
    __eq__, __ne__, __add__, __sub__, __mul__, __truediv__, __rtruediv__,
    __floordiv__, __rfloordiv__, __mod__, __divmod__, __pow__, __neg__,
    __pos__, __abs__, _check_units_match, UnitMixupError___init__,
    Decimal___lt__, Decimal___le__, Decimal___gt__, Decimal___ge__,
    Decimal___eq__, Decimal___ne__, Decimal___add__, Decimal___sub__,
    Decimal___mul__, Decimal___truediv__, Decimal___rtruediv__,
    Decimal___floordiv__, Decimal___rfloordiv__, Decimal___mod__,
    Decimal___divmod__, Decimal___neg__, Decimal___pos__, Decimal___abs__,
    Decimal_binary, Decimal_reflected, Decimal_compare, returned, answered,
    new, bind in H.

Ltac split_cases H :=
  repeat match type of H with
         | context [match ?x with _ => _ end] =>
             lazymatch x with
             | context [match _ with _ => _ end] => fail
             | _ => destruct x eqn:?; simpl in H; try discriminate H
             end
         end.

(** Every path of a method to a UnitMixupError goes through a failed
    unit check of [a] against [other]. *)
Ltac mixup_inv a other :=
  let H := fresh "H" in
  intros ? ? ? H; open_method H;
  destruct (unit_matches_with a other) eqn:?; simpl in H;
  split_cases H; try discriminate H;
  inversion H; subst; repeat split; reflexivity.

(** Split a conjunction without entering its conjuncts. *)
Ltac conjuncts := repeat match goal with |- _ /\ _ => split end.

Ltac no_mixup :=
  let H := fresh "H" in
  intros ? ? ? H; open_method H; split_cases H; discriminate H.

Local Abbreviation only_on_mismatch r a other :=
  (forall obj1 obj2 msg,
     r = Raise (UnitMixupError obj1 obj2 msg) ->
     obj1 = a /\ obj2 = other /\ msg = "Unit mixup" /\
     unit_matches_with a other = false).

Local Abbreviation never_mixup r :=
  (forall obj1 obj2 msg, r <> Raise (UnitMixupError obj1 obj2 msg)).

(** X2.  A UnitMixupError is raised only on a real mismatch.  Whenever an
    ordering comparison, [+], [-], [/], [//], [%], divmod or one of the
    reflected [+], [/], [//] raises a UnitMixupError, its [obj1] is [a], its
    [obj2] is [other], its message is the default one, and
    [a.unit_matches_with(other)] is false.  For [other - a] the same holds
    of the negated value that makes the check.  [==], [!=], [*], [**] and
    the unary operators never raise one. *)
Theorem UnitMixupError_only_on_mismatch (a : united) (other : obj) :
  (only_on_mismatch (__lt__ a other) a other /\
   only_on_mismatch (__le__ a other) a other /\
   only_on_mismatch (__gt__ a other) a other /\
   only_on_mismatch (__ge__ a other) a other /\
   only_on_mismatch (__add__ a other) a other /\
   only_on_mismatch (__sub__ a other) a other /\
   only_on_mismatch (__radd__ a other) a other /\
   only_on_mismatch (__truediv__ a other) a other /\
   only_on_mismatch (__rtruediv__ a other) a other /\
   only_on_mismatch (__floordiv__ a other) a other /\
   only_on_mismatch (__rfloordiv__ a other) a other /\
   only_on_mismatch (__mod__ a other) a other /\
   only_on_mismatch (__divmod__ a other) a other) /\
  (forall obj1 obj2 msg,
     __rsub__ a other = Raise (UnitMixupError obj1 obj2 msg) ->
     __neg__ a = Ok obj1 /\ obj2 = other /\ msg = "Unit mixup" /\
     unit_matches_with obj1 other = false) /\
  (never_mixup (__eq__ a other) /\
   never_mixup (__ne__ a other) /\
   never_mixup (__mul__ a other) /\
   never_mixup (__rmul__ a other) /\
   never_mixup (__pow__ a other) /\
   never_mixup (__neg__ a) /\
   never_mixup (__pos__ a) /\
   never_mixup (__abs__ a)).
Proof.
  split; [| split].
  - conjuncts; mixup_inv a other.
  - intros obj1 obj2 msg H. unfold __rsub__ in H.
    destruct (__neg__ a) as [n | e] eqn:Hneg; simpl in H.
    + assert (Hadd : only_on_mismatch (__add__ n other) n other)
        by mixup_inv n other.
      destruct (Hadd _ _ _ H) as (-> & -> & -> & Hmis).
      conjuncts; try reflexivity. exact Hmis.
    + inversion H as [He]. rewrite He in Hneg.
      exfalso. revert Hneg. generalize obj1 obj2 msg. no_mixup.
  - conjuncts; no_mixup.
Qed.

(** X3.  [!=] always answers the opposite of [==]: one returns the bool
    [b] exactly when the other returns [not b], both return
    NotImplemented together, and both raise the same exception. *)
Theorem ne_is_the_opposite_of_eq (a : united) (other : obj) :
  (forall b : bool,
     __eq__ a other = Ok (PyBool b) <-> __ne__ a other = Ok (PyBool (negb b))) /\
  (__eq__ a other = Ok NotImplemented <-> __ne__ a other = Ok NotImplemented) /\
  (forall e, __eq__ a other = Raise e <-> __ne__ a other = Raise e).
Proof.
  unfold __eq__, __ne__, Decimal___eq__, Decimal___ne__, Decimal_compare.
  destruct (negb (unit_matches_with a other)).
  - repeat split; intros H; try discriminate H.
    + inversion H. reflexivity.
    + inversion H as [Hb]. destruct b; [discriminate Hb | reflexivity].
  - destruct (_convert_for_comparison other) as [d |].
    + destruct (Decimal_eq (value a) d) as [c | s]; simpl;
        repeat split; intros H; try discriminate H; try exact H.
      * inversion H. reflexivity.
      * inversion H as [Hb]. destruct b, c; try discriminate Hb; reflexivity.
    + repeat split; intros H; try discriminate H; reflexivity.
Qed.

(** X4.  [y.new(v)], for [v] a decimal, an int, a bool, a float, a str,
    tuple or list in the format of the constructor of Decimal,
    NotImplemented or an object of a type the constructor does not know:
    it returns [x] exactly when [x] has the unit of [y] and the magnitude
    the constructor reads from [v], and it raises a TypeError when the
    constructor reads none (NotImplemented, an unknown object).
    Hence [a.new(a)] and [a.new(a.value)] give back [a], and rebuilding
    from a result changes nothing. *)
Theorem new_takes_the_value_and_keeps_the_unit (y : united) (v : obj) :
  (forall x : united,
     new y v = Ok x <->
     Decimal___new__ v = Some (value x) /\ unit_of x = unit_of y) /\
  (Decimal___new__ v = None -> raised_class (new y v) = Some cls_TypeError) /\
  new y (United y) = Ok y /\
  new y (Plain (value y)) = Ok y /\
  (forall x : united, new y v = Ok x -> new x v = Ok x /\ new y (United x) = Ok x).
Proof.
  split; [| split; [| split; [| split]]].
  - intros [ux vx]. destruct v; simpl; split;
      try (intros H; inversion H; subst; split; reflexivity);
      try (intros [H1 H2]; inversion H1; subst; reflexivity);
      try (intros H; discriminate H);
      intros [H _]; discriminate H.
  - destruct v; simpl; intros H; try discriminate H; reflexivity.
  - destruct y; reflexivity.
  - destruct y; reflexivity.
  - intros x H. pose proof (new_unit _ _ _ H) as Hu.
    destruct v; simpl in *; inversion H; subst; split; reflexivity.
Qed.

(** X5.  With a UnitedDecimal on both sides whose units match in both
    directions, the reflected divisions of [a] are the divisions of the
    other operand by [a]. *)
Theorem reflected_division_mirrors_division (a b : united) :
  unit_matches_with a (United b) = true ->
  unit_matches_with b (United a) = true ->
  __rtruediv__ a (United b) = __truediv__ b (United a) /\
  __rfloordiv__ a (United b) = __floordiv__ b (United a).
Proof.
  intros Hab Hba.
  unfold __rtruediv__, __truediv__, __rfloordiv__, __floordiv__. simpl.
  rewrite (check_units_match _ _ Hab), (check_units_match _ _ Hba).
  split; reflexivity.
Qed.

(** X6.  The unit check comes before the division.  [a / b] and the
    reflected [//] with a UnitedDecimal [b] of another unit raise the
    UnitMixupError whatever the magnitudes are; once the units match, a
    signal of the decimal division (such as a division by zero) is what
    [/], [//], [%] and divmod raise, unchanged. *)
Theorem division_errors_in_order (a b : united) :
  (unit_matches_with a (United b) = false ->
   __truediv__ a (United b) = Raise (UnitMixupError a (United b) "Unit mixup") /\
   __rfloordiv__ a (United b) = Raise (UnitMixupError a (United b) "Unit mixup")) /\
  (unit_matches_with a (United b) = true ->
   (forall s, Decimal_truediv (value a) (value b) = Raise s ->
              __truediv__ a (United b) = Raise (DecimalException s)) /\
   (forall s, Decimal_floordiv (value a) (value b) = Raise s ->
              __floordiv__ a (United b) = Raise (DecimalException s)) /\
   (forall s, Decimal_mod (value a) (value b) = Raise s ->
              __mod__ a (United b) = Raise (DecimalException s)) /\
   (forall s, Decimal_divmod (value a) (value b) = Raise s ->
              __divmod__ a (United b) = Raise (DecimalException s))).
Proof.
  unfold __truediv__, __rfloordiv__, __floordiv__, __mod__, __divmod__. simpl.
  split; intros Hunits.
  - rewrite (check_units_mismatch _ _ Hunits). split; reflexivity.
  - rewrite (check_units_match _ _ Hunits).
    unfold Decimal___truediv__, Decimal___floordiv__, Decimal___mod__,
      Decimal___divmod__, Decimal_binary. simpl.
    repeat split; intros s Hs; rewrite Hs; reflexivity.
Qed.

(** X7.  An operand that decimal does not convert for arithmetic: a
    float, a str, tuple or list, NotImplemented, or an object of a type
    decimal does not know.  [*] and [/] raise a TypeError, because the
    NotImplemented that Decimal returns is handed to [new]; so do [+] and
    [-] when the operand gets past the unit check.  The six comparisons
    then return NotImplemented for an operand that the comparisons of
    decimal do not convert either, but for a float they answer with
    decimal's comparison of the magnitude and the float. *)
Theorem unconvertible_operand (a : united) (other : obj) :
  _convert_other other = None ->
  raised_class (__mul__ a other) = Some cls_TypeError /\
  raised_class (__rmul__ a other) = Some cls_TypeError /\
  raised_class (__truediv__ a other) = Some cls_TypeError /\
  (unit_matches_with a other = true ->
   raised_class (__add__ a other) = Some cls_TypeError /\
   raised_class (__sub__ a other) = Some cls_TypeError /\
   (_convert_for_comparison other = None ->
    __lt__ a other = Ok NotImplemented /\
    __le__ a other = Ok NotImplemented /\
    __gt__ a other = Ok NotImplemented /\
    __ge__ a other = Ok NotImplemented /\
    __eq__ a other = Ok NotImplemented /\
    __ne__ a other = Ok NotImplemented) /\
   (forall (d : Decimal) (text : string),
      other = PyFloat d text ->
      __lt__ a other = answered (Decimal_lt (value a) d) /\
      __le__ a other = answered (Decimal_le (value a) d) /\
      __gt__ a other = answered (Decimal_gt (value a) d) /\
      __ge__ a other = answered (Decimal_ge (value a) d) /\
      __eq__ a other = answered (Decimal_eq (value a) d) /\
      __ne__ a other
        = answered (e <- Decimal_eq (value a) d ;; Ok (negb e)))).
Proof.
  intros Hconv.
  pose proof (unconvertible_is_plain _ Hconv) as Hplain.
  unfold __rmul__, __mul__, __truediv__. rewrite Hplain.
  unfold Decimal___mul__, Decimal___truediv__, Decimal_binary. rewrite Hconv.
  conjuncts; try reflexivity.
  intros Hmatch.
  unfold __add__, __sub__, __lt__, __le__, __gt__, __ge__, __eq__, __ne__.
  rewrite (check_units_match _ _ Hmatch), Hmatch.
  unfold Decimal___add__, Decimal___sub__, Decimal___lt__, Decimal___le__,
    Decimal___gt__, Decimal___ge__, Decimal___eq__, Decimal___ne__,
    Decimal_binary, Decimal_compare.
  rewrite Hconv. conjuncts; try reflexivity.
  - intros Hcmp. rewrite Hcmp. repeat split.
  - intros d text ->. repeat split.
Qed.

(** *** Text *)

(** X8.  [repr] of a UnitedDecimal is the repr of its magnitude with the
    class name in place of the word Decimal: when decimal prints the
    magnitude as [Decimal] followed by [body], and [body] holds no capital
    D, the repr is the class name followed by [body] (the class name
    itself is not searched again). *)
Theorem repr_names_the_class (a : united) (body : string) :
  Decimal_repr (value a) = "Decimal" ++ body ->
  lacks "D" body = true ->
  __repr__ a = type_name (unit_of a) ++ body.
Proof.
  intros Hrepr Hbody. unfold __repr__. rewrite Hrepr.
  rewrite str_replace_leading, (str_replace_lacks _ _ _ _ Hbody).
  reflexivity.
Qed.

(** X9.  The text of the UnitMixupError that [a + b] raises for two
    UnitedDecimals of different units names both operands by class and
    magnitude: [Unit mixup: A(...) vs B(...)]. *)
Theorem unit_mixup_text_names_both_operands (a b : united) (body_a body_b : string) :
  Decimal_repr (value a) = "Decimal" ++ body_a -> lacks "D" body_a = true ->
  Decimal_repr (value b) = "Decimal" ++ body_b -> lacks "D" body_b = true ->
  unit_matches_with a (United b) = false ->
  exists e,
    __add__ a (United b) = Raise e /\
    exn___str__ e =
      "Unit mixup: " ++ (type_name (unit_of a) ++ body_a)
      ++ " vs " ++ (type_name (unit_of b) ++ body_b).
Proof.
  intros Ha Hba Hb Hbb Hmis.
  exists (UnitMixupError a (United b) "Unit mixup"). split.
  - unfold __add__. rewrite (check_units_mismatch _ _ Hmis). reflexivity.
  - simpl exn___str__.
    rewrite (repr_names_the_class a body_a Ha Hba),
      (repr_names_the_class b body_b Hb Hbb).
    reflexivity.
Qed.

(** Values of one unit match each other, by the post-condition of [new]. *)
Lemma same_unit_matches (Hunits : UnitContract F) (x y : united) :
  unit_of x = unit_of y -> unit_matches_with x (United y) = true.
Proof.
  intros Hxy. apply (new_postcondition y x (Plain (value x))).
  destruct x as [ux vx]. simpl in Hxy |- *. rewrite Hxy. reflexivity.
Qed.

End FurtherProperties.

(** ** More facts about the reference primitive *)

Section PyDecimalLaws.
Import PyDecimal.
Local Open Scope Z_scope.

(** Whether the rounding step changes a number does not depend on its
    sign. *)
Lemma unrounded_sign (x : t) (s : bool) :
  unrounded x -> unrounded (mk s (_int x) (_exp x)).
Proof.
  destruct x as [sx i e]. unfold unrounded, fix_, is_zero. simpl.
  destruct (N.eqb i 0).
  - intros H. injection H as Hi He. rewrite He. subst i. reflexivity.
  - cbv zeta.
    repeat match goal with
           | |- context [if ?c then Raise Overflow else _] =>
               destruct c; [intros H; discriminate H |]
           | |- context [if ?c then _ else Ok _] => destruct c
           end.
    + intros H. injection H as Hi He. rewrite Hi, He. reflexivity.
    + reflexivity.
Qed.

Lemma neg_exact_shape (x : t) :
  neg_exact x = mk (_sign (neg_exact x)) (_int x) (_exp x).
Proof. unfold neg_exact. destruct (is_zero x); reflexivity. Qed.

(** A number that fits the context is negated without rounding. *)
Lemma neg_unrounded (x : t) :
  unrounded x -> neg x = Ok (neg_exact x) /\ unrounded (neg_exact x).
Proof.
  intros Hx.
  assert (H : unrounded (neg_exact x))
    by (rewrite neg_exact_shape; apply unrounded_sign, Hx).
  split; [exact H | exact H].
Qed.

Lemma exp_neg (x : t) : _exp (neg_exact x) = _exp x.
Proof. unfold neg_exact. destruct (is_zero x); reflexivity. Qed.

Lemma signed_neg (x : t) : signed (neg_exact x) = - signed x.
Proof.
  unfold neg_exact. destruct (is_zero x) eqn:Hz.
  - apply N.eqb_eq in Hz. unfold signed, copy_abs; simpl. rewrite Hz.
    destruct (_sign x); reflexivity.
  - apply signed_copy_negate.
Qed.

Lemma neg_neg_exact (x : t) : eq (neg_exact (neg_exact x)) x = true.
Proof.
  apply eq_of_number.
  - rewrite !exp_neg. reflexivity.
  - rewrite !signed_neg. lia.
Qed.

(** Two numbers that differ at most in the sign of a zero come out of the
    rounding step as equal numbers, or raise together. *)
Lemma fix_up_to_zero_sign (u v : t) :
  _int u = _int v -> _exp u = _exp v ->
  (is_zero u = false -> _sign u = _sign v) ->
  match fix_ u with
  | Ok d => exists s, fix_ v = Ok s /\ eq d s = true
  | Raise e => fix_ v = Raise e
  end.
Proof.
  destruct u as [su iu eu], v as [sv iv ev]. simpl.
  intros <- <- Hsign.
  destruct (is_zero (mk su iu eu)) eqn:Hz.
  - unfold fix_. unfold is_zero in *. simpl in *. rewrite Hz.
    eexists. split; [reflexivity |].
    apply eq_of_number; [reflexivity |].
    unfold signed; simpl. destruct su, sv; reflexivity.
  - rewrite <- (Hsign eq_refl).
    destruct (fix_ (mk su iu eu)) as [d | e]; [| reflexivity].
    exists d. split; [reflexivity |].
    apply eq_of_number; reflexivity.
Qed.

(** [x - y] and [x + (-y)] before rounding. *)
Lemma sub_add_neg_shape (x y : t) :
  _int (sub_exact x y) = _int (add_exact x (neg_exact y)) /\
  _exp (sub_exact x y) = _exp (add_exact x (neg_exact y)) /\
  (is_zero (sub_exact x y) = false ->
   _sign (sub_exact x y) = _sign (add_exact x (neg_exact y))).
Proof.
  unfold neg_exact. destruct (is_zero y) eqn:Hy; [| repeat split].
  apply N.eqb_eq in Hy.
  assert (Hs : forall e, scaled (copy_negate y) e = scaled (copy_abs y) e).
  { intros e. unfold scaled, signed, copy_negate, copy_abs. simpl. rewrite Hy.
    destruct (_sign y); reflexivity. }
  unfold sub_exact, add_exact, of_signed, is_zero. simpl.
  rewrite Hs. repeat split.
  intros Hnz.
  destruct (Z.eqb_spec
              (scaled x (Z.min (_exp x) (_exp y))
               + scaled (copy_abs y) (Z.min (_exp x) (_exp y))) 0) as [Hz | _];
    [| reflexivity].
  rewrite Hz in Hnz. discriminate Hnz.
Qed.

(** [divmod] is the pair of [//] and [%]. *)
Lemma divmod_floordiv_mod (x y q r : t) :
  divmod x y = Ok (q, r) <-> floordiv x y = Ok q /\ modulo x y = Ok r.
Proof.
  unfold divmod, floordiv, modulo.
  destruct (is_zero y).
  - split; [intros H; discriminate H | intros [_ H]; discriminate H].
  - destruct (_divide x y) as [[q0 r0] | e]; simpl.
    + destruct (fix_ r0) as [r1 | e]; simpl; split.
      * intros H. inversion H. split; reflexivity.
      * intros [Hq Hr]. inversion Hq. inversion Hr. reflexivity.
      * intros H. discriminate H.
      * intros [_ H]. discriminate H.
    + split; [intros H; discriminate H | intros [H _]; discriminate H].
Qed.

(** Before rounding, the divisor times the integer quotient plus the
    remainder is the dividend. *)
Lemma divide_identity (x y q r : t) :
  is_zero y = false ->
  _divide x y = Ok (q, r) ->
  eq (add_exact (mul_exact y q) r) x = true.
Proof.
  intros Hy Hd. apply N.eqb_neq in Hy.
  set (e := Z.min (_exp x) (_exp y)).
  assert (He1 : 0 <= _exp x - e) by (unfold e; lia).
  assert (He2 : 0 <= _exp y - e) by (unfold e; lia).
  assert (Hgoal : _exp r = e /\ _exp (mul_exact y q) = _exp y /\
                  signed (mul_exact y q) * 10 ^ (_exp y - e) + signed r
                  = signed x * 10 ^ (_exp x - e)).
  { unfold _divide in Hd. fold e in Hd.
    set (op1 := Z.of_N (_int x) * 10 ^ (_exp x - e)) in *.
    set (op2 := Z.of_N (_int y) * 10 ^ (_exp y - e)) in *.
    assert (Hop1 : 0 <= op1).
    { unfold op1. apply Z.mul_nonneg_nonneg; [lia | apply Z.pow_nonneg; lia]. }
    assert (Hop2 : 0 < op2).
    { unfold op2. apply Z.mul_pos_pos; [lia | apply Z.pow_pos_nonneg; lia]. }
    destruct (is_zero x || (adjusted x - adjusted y <=? -2)).
    - inversion Hd; subst q r; clear Hd.
      unfold mul_exact, _rescale, signed; simpl. fold op1.
      rewrite N.mul_0_r, Z2N.id by exact Hop1.
      split; [reflexivity | split; [lia |]].
      unfold op1. destruct (xorb (_sign y) (xorb (_sign x) (_sign y))), (_sign x);
        simpl; lia.
    - destruct ((adjusted x - adjusted y <=? prec) && (op1 / op2 <? 10 ^ prec));
        [| discriminate Hd].
      inversion Hd; subst q r; clear Hd.
      assert (Hq : 0 <= op1 / op2) by (apply Z.div_pos; lia).
      assert (Hr : 0 <= op1 mod op2) by (apply Z.mod_pos_bound; lia).
      unfold mul_exact, signed; simpl.
      rewrite N2Z.inj_mul, !Z2N.id by assumption.
      split; [reflexivity | split; [lia |]].
      pose proof (Z_div_mod_eq_full op1 op2) as Hdm.
      assert (Hy2 : Z.of_N (_int y) * (op1 / op2) * 10 ^ (_exp y - e)
                    = op2 * (op1 / op2)) by (unfold op2; lia).
      revert Hdm Hy2. fold op1.
      generalize (op1 / op2) (op1 mod op2) (10 ^ (_exp y - e)).
      intros k m w Hdm Hy2.
      destruct (_sign x), (_sign y); cbv beta iota delta [xorb]; lia. }
  destruct Hgoal as (Hre & Hpe & Hnum).
  destruct (scaled_add (mul_exact y q) r) as [Hse Hss]. cbv zeta in Hse, Hss.
  rewrite Hpe, Hre in Hse, Hss.
  replace (Z.min (_exp y) e) with e in Hse, Hss by (unfold e; lia).
  unfold eq, cmp. rewrite Hse.
  replace (Z.min e (_exp x)) with e by (unfold e; lia).
  unfold scaled at 1. rewrite Hss, Hse, Z.sub_diag.
  unfold scaled. rewrite Hpe, Hre, Z.sub_diag.
  change (10 ^ 0) with 1. rewrite !Z.mul_1_r.
  fold e. rewrite Hnum, Z.compare_refl. reflexivity.
Qed.

End PyDecimalLaws.

(** * Arithmetic with matching units *)

Section SameUnit.
Context {D : DecimalPrimitive} {F : UnitFamily}.

Local Abbreviation obj := (pyobj unit_tag).
Local Abbreviation united := (UnitedDecimal unit_tag).

Lemma sub_same_unit_outcome (a b : united) :
  unit_matches_with a (United b) = true ->
  __sub__ a (United b) =
    match Decimal_sub (value a) (value b) with
    | Ok d => Ok (mkUnited (unit_of a) d)
    | Raise signal => Raise (DecimalException signal)
    end.
Proof.
  intros Hmatch. unfold __sub__.
  rewrite (check_units_match _ _ Hmatch).
  unfold Decimal___sub__, Decimal_binary. simpl.
  destruct (Decimal_sub (value a) (value b)); reflexivity.
Qed.

Lemma neg_outcome (a : united) :
  __neg__ a =
    match Decimal_neg (value a) with
    | Ok d => Ok (mkUnited (unit_of a) d)
    | Raise signal => Raise (DecimalException signal)
    end.
Proof.
  unfold __neg__, Decimal___neg__.
  destruct (Decimal_neg (value a)); reflexivity.
Qed.

Lemma floordiv_same_unit (a b : united) :
  unit_matches_with a (United b) = true ->
  __floordiv__ a (United b) = returned (Decimal_floordiv (value a) (value b)).
Proof.
  intros Hmatch. unfold __floordiv__. simpl isinstance_UnitedDecimal; cbv iota.
  rewrite (check_units_match _ _ Hmatch). reflexivity.
Qed.

Lemma mod_same_unit (a b : united) :
  unit_matches_with a (United b) = true ->
  __mod__ a (United b) =
    match Decimal_mod (value a) (value b) with
    | Ok r => Ok (mkUnited (unit_of a) r)
    | Raise signal => Raise (DecimalException signal)
    end.
Proof.
  intros Hmatch. unfold __mod__. simpl isinstance_UnitedDecimal; cbv iota.
  rewrite (check_units_match _ _ Hmatch).
  unfold Decimal___mod__, Decimal_binary. simpl.
  destruct (Decimal_mod (value a) (value b)); reflexivity.
Qed.

Lemma divmod_same_unit (a b : united) :
  unit_matches_with a (United b) = true ->
  __divmod__ a (United b) =
    match Decimal_divmod (value a) (value b) with
    | Ok (q, r) => Ok (Plain q, mkUnited (unit_of a) r)
    | Raise signal => Raise (DecimalException signal)
    end.
Proof.
  intros Hmatch. unfold __divmod__. simpl isinstance_UnitedDecimal; cbv iota.
  rewrite (check_units_match _ _ Hmatch).
  unfold Decimal___divmod__. simpl.
  destruct (Decimal_divmod (value a) (value b)) as [[q r] | s]; reflexivity.
Qed.

(** The three division methods make the same checks in the same order. *)
Lemma division_checks_fail_together (a : united) (other : obj) :
  isinstance_UnitedDecimal other = false \/ unit_matches_with a other = false ->
  (exists e1 e2 e3,
     __divmod__ a other = Raise e1 /\
     __floordiv__ a other = Raise e2 /\
     __mod__ a other = Raise e3).
Proof.
  unfold __divmod__, __floordiv__, __mod__, _check_units_match.
  destruct (isinstance_UnitedDecimal other); simpl.
  - intros [H | H]; [discriminate H |]. rewrite H. simpl.
    repeat eexists.
  - intros _. repeat eexists.
Qed.

End SameUnit.

(** * Arithmetic laws on the reference primitive

    The laws of exact arithmetic hold for the results of the methods as
    long as the context of 28 digits does not round on the way; each
    statement says which numbers have to fit. *)

Section ReferenceArithmetic.
Context {F : @UnitFamily PyDecimal.prim}.
Import PyDecimal.

Local Abbreviation obj := (@pyobj PyDecimal.prim unit_tag).
Local Abbreviation united := (@UnitedDecimal PyDecimal.prim unit_tag).

(** X10.  Integer division of two values of one unit, on the reference
    decimal arithmetic.  [divmod(a, b)] returns the pair [(q, r)] exactly
    when [a // b] returns [q] and [a % b] returns [r]: the three methods
    agree, whatever the operand.  When the integer division of the
    magnitudes is possible (the divisor is not zero and the quotient fits
    the precision) and neither the remainder nor [b * q] nor [b * q + r]
    is rounded, then [divmod(a, b)] is the plain quotient [q] and the
    remainder [r] in the unit of [a], and [b * q + r == a]. *)
Theorem divmod_agrees_with_floordiv_and_mod (a : united) :
  (forall (other q : obj) (r : united),
     __divmod__ a other = Ok (q, r) <->
     __floordiv__ a other = Ok q /\ __mod__ a other = Ok r) /\
  (forall (b : united) (q r : t),
     UnitContract F ->
     unit_of a = unit_of b ->
     is_zero (value b) = false ->
     _divide (value a) (value b) = Ok (q, r) ->
     unrounded r ->
     unrounded (mul_exact (value b) q) ->
     unrounded (add_exact (mul_exact (value b) q) r) ->
     exists (p s : united),
       __divmod__ a (United b)
         = Ok (Plain (D := prim) q, mkUnited (D := prim) (unit_of a) r) /\
       __mul__ b (Plain (D := prim) q) = Ok p /\
       __add__ p (United (mkUnited (D := prim) (unit_of a) r)) = Ok s /\
       unit_of s = unit_of a /\
       __eq__ s (United a) = Ok (PyBool true)).
Proof.
  split.
  - intros other q r.
    destruct (isinstance_UnitedDecimal other) eqn:Hinst;
      [destruct (unit_matches_with a other) eqn:Hmatch |].
    + destruct other as [ | b | | | | | | ]; try discriminate Hinst.
      rewrite (divmod_same_unit _ _ Hmatch), (floordiv_same_unit _ _ Hmatch),
        (mod_same_unit _ _ Hmatch).
      change (Decimal_divmod (value a) (value b)) with (divmod (value a) (value b)).
      change (Decimal_floordiv (value a) (value b)) with (floordiv (value a) (value b)).
      change (Decimal_mod (value a) (value b)) with (modulo (value a) (value b)).
      pose proof (divmod_floordiv_mod (value a) (value b)) as Hdm.
      destruct (divmod (value a) (value b)) as [[q0 r0] | e] eqn:Hd.
      * destruct (proj1 (Hdm q0 r0) eq_refl) as [Hq Hr]. rewrite Hq, Hr. simpl.
        split.
        -- intros H. inversion H. split; reflexivity.
        -- intros [H1 H2]. inversion H1. inversion H2. reflexivity.
      * split; [intros H; discriminate H |].
        intros [H1 H2].
        destruct (floordiv (value a) (value b)) as [q1 | e1] eqn:Hq;
          [| discriminate H1].
        destruct (modulo (value a) (value b)) as [r1 | e2] eqn:Hr;
          [| discriminate H2].
        pose proof (proj2 (Hdm q1 r1) (conj eq_refl eq_refl)) as Hc.
        discriminate Hc.
    + destruct (division_checks_fail_together a other (or_intror Hmatch))
        as (e1 & e2 & e3 & H1 & H2 & H3).
      rewrite H1, H2, H3.
      split; [intros H; discriminate H | intros [H _]; discriminate H].
    + destruct (division_checks_fail_together a other (or_introl Hinst))
        as (e1 & e2 & e3 & H1 & H2 & H3).
      rewrite H1, H2, H3.
      split; [intros H; discriminate H | intros [H _]; discriminate H].
  - intros b q r Hunits Hab Hy Hd Hr Hp Hs.
    exists (mkUnited (D := prim) (unit_of b) (mul_exact (value b) q)),
           (mkUnited (D := prim) (unit_of b) (add_exact (mul_exact (value b) q) r)).
    split; [| split; [| split; [| split]]].
    + rewrite (divmod_same_unit _ _ (same_unit_matches Hunits a b Hab)).
      change (Decimal_divmod (value a) (value b)) with (divmod (value a) (value b)).
      unfold divmod. rewrite Hy, Hd. simpl. rewrite Hr. reflexivity.
    + rewrite (mul_plain b (Plain (D := prim) q) q eq_refl eq_refl).
      change (Decimal_mul (value b) q) with (mul (value b) q).
      unfold mul. rewrite Hp. reflexivity.
    + apply (add_same_unit
               (mkUnited (D := prim) (unit_of b) (mul_exact (value b) q))
               (mkUnited (D := prim) (unit_of a) r)).
      * apply (same_unit_matches Hunits). simpl. symmetry. exact Hab.
      * exact Hs.
    + simpl. symmetry. exact Hab.
    + apply eq_same_unit.
      * apply (same_unit_matches Hunits). simpl. symmetry. exact Hab.
      * exact (f_equal (fun c => @Ok signal bool c)
                 (divide_identity (value a) (value b) q r Hy Hd)).
Qed.

(** X11.  On the reference decimal arithmetic, for a value whose
    magnitude fits the context (it is not changed by rounding to 28
    digits), [-a] and [-(-a)] return values of the unit of [a], and
    [-(-a) == a]. *)
Theorem double_negation (a : united) :
  UnitContract F ->
  unrounded (value a) ->
  exists (n m : united),
    __neg__ a = Ok n /\ __neg__ n = Ok m /\
    unit_of n = unit_of a /\ unit_of m = unit_of a /\
    __eq__ m (United a) = Ok (PyBool true).
Proof.
  intros Hunits Ha.
  destruct (neg_unrounded (value a) Ha) as [Hn Hn'].
  destruct (neg_unrounded (neg_exact (value a)) Hn') as [Hm _].
  exists (mkUnited (D := prim) (unit_of a) (neg_exact (value a))),
         (mkUnited (D := prim) (unit_of a) (neg_exact (neg_exact (value a)))).
  split; [| split; [| split; [| split]]].
  - rewrite neg_outcome.
    change (Decimal_neg (value a)) with (neg (value a)). rewrite Hn. reflexivity.
  - rewrite neg_outcome. simpl value.
    change (@Decimal_neg prim (neg_exact (value a)))
      with (neg (neg_exact (value a))).
    rewrite Hm. reflexivity.
  - reflexivity.
  - reflexivity.
  - apply eq_same_unit.
    + apply (same_unit_matches Hunits). reflexivity.
    + exact (f_equal (fun c => @Ok signal bool c) (neg_neg_exact (value a))).
Qed.

(** X12.  On the reference decimal arithmetic, for two values of one
    unit where the magnitude of [b] fits the context: when [a - b]
    returns [d], then [-b] returns a value [n], [a + n] returns a value
    [s], and [d == s]; this holds also when the difference itself is
    rounded.  When [a - b] raises a signal of the arithmetic, [a + (-b)]
    raises the same. *)
Theorem sub_is_adding_the_negation (a b : united) :
  UnitContract F ->
  unit_of a = unit_of b ->
  unrounded (value b) ->
  exists n : united,
    __neg__ b = Ok n /\ unit_of n = unit_of b /\
    match __sub__ a (United b) with
    | Ok d => exists s : united,
        __add__ a (United n) = Ok s /\ unit_of s = unit_of d /\
        __eq__ d (United s) = Ok (PyBool true)
    | Raise e => __add__ a (United n) = Raise e
    end.
Proof.
  intros Hunits Hab Hb.
  destruct (neg_unrounded (value b) Hb) as [Hn _].
  exists (mkUnited (D := prim) (unit_of b) (neg_exact (value b))).
  split; [| split; [reflexivity |]].
  - rewrite neg_outcome.
    change (Decimal_neg (value b)) with (neg (value b)). rewrite Hn. reflexivity.
  - assert (Hmatch : unit_matches_with a
                       (United (mkUnited (D := prim) (unit_of b)
                                  (neg_exact (value b)))) = true)
      by (apply (same_unit_matches Hunits); exact Hab).
    rewrite (sub_same_unit_outcome _ _ (same_unit_matches Hunits a b Hab)).
    change (Decimal_sub (value a) (value b)) with (sub (value a) (value b)).
    destruct (sub_add_neg_shape (value a) (value b)) as (Hi & He & Hsg).
    pose proof (fix_up_to_zero_sign _ _ Hi He Hsg) as Hfix.
    change (fix_ (sub_exact (value a) (value b))) with (sub (value a) (value b)) in Hfix.
    change (fix_ (add_exact (value a) (neg_exact (value b))))
      with (add (value a) (neg_exact (value b))) in Hfix.
    destruct (sub (value a) (value b)) as [d | e].
    + destruct Hfix as (s & Hs & Heq).
      exists (mkUnited (D := prim) (unit_of a) s).
      split; [| split; [reflexivity |]].
      * apply add_same_unit; [exact Hmatch | exact Hs].
      * apply eq_same_unit.
        -- apply (same_unit_matches Hunits). reflexivity.
        -- exact (f_equal (fun c => @Ok signal bool c) Heq).
    + unfold __add__. rewrite (check_units_match _ _ Hmatch).
      unfold Decimal___add__, Decimal_binary. simpl.
      change (@Decimal_add prim (value a) (neg_exact (value b)))
        with (add (value a) (neg_exact (value b))).
      rewrite Hfix. reflexivity.
Qed.

End ReferenceArithmetic.

Section FurtherScenarios.
Import Pricing Measures Amounts.

Local Abbreviation price := (@UnitedDecimal PyDecimal.prim price_class).
Local Abbreviation taxful n := (TaxfulPrice n : @UnitedDecimal PyDecimal.prim (@unit_tag _ prices)).
Local Abbreviation taxless n := (TaxlessPrice n : @UnitedDecimal PyDecimal.prim (@unit_tag _ prices)).
Local Abbreviation plain n := (Decimal_ n : @pyobj PyDecimal.prim (@unit_tag _ prices)).
Local Abbreviation kg n := (Measure n "kg" : @UnitedDecimal PyDecimal.prim (@unit_tag _ measures)).
Local Abbreviation amount n := (Amount n : @UnitedDecimal PyDecimal.prim (@unit_tag _ amounts)).
Local Abbreviation none := (Foreign "None" : @pyobj PyDecimal.prim (@unit_tag _ amounts)).
Local Abbreviation float_10_5 :=
  (PyFloat (D := PyDecimal.prim) (PyDecimal.mk false 105 (-1)) "10.5"
   : @pyobj PyDecimal.prim (@unit_tag _ amounts)).
Local Abbreviation str_1_5 :=
  (Literal (D := PyDecimal.prim) (PyDecimal.mk false 15 (-1)) "'1.5'"
   : @pyobj PyDecimal.prim (@unit_tag _ amounts)).

Lemma results_keep_the_unit_witness :
  __mul__ (taxful 10) (PyInt 3) = Ok (taxful 30) /\
  unit_of (taxful 30) = unit_of (taxful 10) /\
  __rsub__ (kg 10) (PyInt 3) = Ok (kg (-7)) /\
  unit_of (kg (-7)) = unit_of (kg 10).
Proof.
  destruct (results_keep_the_unit (taxful 10) (PyInt 3))
    as (_ & _ & Hmul & _).
  destruct (results_keep_the_unit (kg 10) (PyInt 3))
    as (_ & _ & _ & _ & Hrsub & _).
  split; [reflexivity |].
  split; [exact (Hmul (taxful 30) eq_refl) |].
  split; [reflexivity |].
  exact (Hrsub (kg (-7)) eq_refl).
Defined.

Lemma UnitMixupError_only_on_mismatch_witness :
  __lt__ (taxful 10) (United (taxless 2))
    = Raise (UnitMixupError (taxful 10) (United (taxless 2)) "Unit mixup") /\
  unit_matches_with (taxful 10) (United (taxless 2)) = false.
Proof.
  destruct (UnitMixupError_only_on_mismatch (taxful 10) (United (taxless 2)))
    as ((Hlt & _) & _ & _).
  split; [reflexivity |].
  exact (proj2 (proj2 (proj2 (Hlt _ _ _ eq_refl)))).
Defined.

Lemma ne_is_the_opposite_of_eq_witness :
  __eq__ (taxful 10) (United (taxful 10)) = Ok (PyBool true) /\
  __ne__ (taxful 10) (United (taxful 10)) = Ok (PyBool false) /\
  __eq__ (taxful 10) (PyInt 10) = Ok (PyBool false) /\
  __ne__ (taxful 10) (PyInt 10) = Ok (PyBool true).
Proof.
  destruct (ne_is_the_opposite_of_eq (taxful 10) (United (taxful 10)))
    as (Hsame & _ & _).
  destruct (ne_is_the_opposite_of_eq (taxful 10) (PyInt 10))
    as (Hint & _ & _).
  split; [reflexivity |].
  split; [exact (proj1 (Hsame true) eq_refl) |].
  split; [reflexivity |].
  exact (proj1 (Hint false) eq_refl).
Defined.

Lemma new_witness :
  new (taxful 10) (PyInt 3) = Ok (taxful 3) /\
  Decimal___new__ (PyInt 3 : pyobj (@unit_tag _ prices))
    = Some (value (taxful 3)) /\
  Decimal___new__ none = None /\
  raised_class (new (amount 10) none) = Some cls_TypeError /\
  new (amount 10) float_10_5
    = Ok (mkUnited (D := PyDecimal.prim) tt (PyDecimal.mk false 105 (-1))) /\
  new (amount 10) str_1_5
    = Ok (mkUnited (D := PyDecimal.prim) tt (PyDecimal.mk false 15 (-1))).
Proof.
  destruct (new_takes_the_value_and_keeps_the_unit (taxful 10) (PyInt 3))
    as (Hnew & _).
  destruct (new_takes_the_value_and_keeps_the_unit (amount 10) none)
    as (_ & Hnone & _).
  destruct (new_takes_the_value_and_keeps_the_unit (amount 10) float_10_5)
    as (Hfloat & _).
  destruct (new_takes_the_value_and_keeps_the_unit (amount 10) str_1_5)
    as (Hstr & _).
  split; [reflexivity |].
  split; [exact (proj1 (proj1 (Hnew (taxful 3)) eq_refl)) |].
  split; [reflexivity |].
  split; [exact (Hnone eq_refl) |].
  split.
  - exact (proj2 (Hfloat (mkUnited (D := PyDecimal.prim) tt
                            (PyDecimal.mk false 105 (-1))))
             (conj eq_refl eq_refl)).
  - exact (proj2 (Hstr (mkUnited (D := PyDecimal.prim) tt
                          (PyDecimal.mk false 15 (-1))))
             (conj eq_refl eq_refl)).
Defined.

Lemma reflected_division_witness :
  unit_matches_with (taxful 10) (United (taxful 4)) = true /\
  unit_matches_with (taxful 4) (United (taxful 10)) = true /\
  __rtruediv__ (taxful 10) (United (taxful 4))
    = __truediv__ (taxful 4) (United (taxful 10)).
Proof.
  split; [reflexivity | split; [reflexivity |]].
  exact (proj1 (reflected_division_mirrors_division
                  (taxful 10) (taxful 4) eq_refl eq_refl)).
Defined.

Lemma division_errors_witness :
  (unit_matches_with (taxful 1) (United (taxless 0)) = false /\
   __truediv__ (taxful 1) (United (taxless 0))
     = Raise (UnitMixupError (taxful 1) (United (taxless 0)) "Unit mixup")) /\
  (unit_matches_with (taxful 1) (United (taxful 0)) = true /\
   __truediv__ (taxful 1) (United (taxful 0))
     = Raise (DecimalException (D := PyDecimal.prim) PyDecimal.DivisionByZero)).
Proof.
  destruct (division_errors_in_order (taxful 1) (taxless 0)) as [Hmis _].
  destruct (division_errors_in_order (taxful 1) (taxful 0)) as [_ Hzero].
  split; (split; [reflexivity |]).
  - exact (proj1 (Hmis eq_refl)).
  - exact (proj1 (Hzero eq_refl) PyDecimal.DivisionByZero eq_refl).
Defined.

Lemma unconvertible_operand_witness :
  _convert_other none = None /\
  unit_matches_with (amount 10) none = true /\
  raised_class (__mul__ (amount 10) none) = Some cls_TypeError /\
  raised_class (__add__ (amount 10) none) = Some cls_TypeError /\
  __lt__ (amount 10) none = Ok NotImplemented /\
  _convert_other float_10_5 = None /\
  raised_class (__mul__ (amount 10) float_10_5) = Some cls_TypeError /\
  raised_class (__add__ (amount 10) float_10_5) = Some cls_TypeError /\
  __lt__ (amount 10) float_10_5 = Ok (PyBool true) /\
  __eq__ (amount 10) float_10_5 = Ok (PyBool false).
Proof.
  destruct (unconvertible_operand (amount 10) none eq_refl)
    as (Hmul & _ & _ & Hmatch).
  destruct (Hmatch eq_refl) as (Hadd & _ & Hcmp & _).
  destruct (Hcmp eq_refl) as (Hlt & _).
  destruct (unconvertible_operand (amount 10) float_10_5 eq_refl)
    as (Hfmul & _ & _ & Hfmatch).
  destruct (Hfmatch eq_refl) as (Hfadd & _ & _ & Hfcmp).
  destruct (Hfcmp _ _ eq_refl) as (Hflt & _ & _ & _ & Hfeq & _).
  split; [reflexivity | split; [reflexivity |]].
  split; [exact Hmul | split; [exact Hadd | split; [exact Hlt |]]].
  split; [reflexivity |].
  split; [exact Hfmul | split; [exact Hfadd |]].
  split; [exact Hflt | exact Hfeq].
Defined.

Lemma repr_names_the_class_witness :
  Decimal_repr (value (taxful 10)) = "Decimal" ++ "('10')" /\
  lacks "D" "('10')" = true /\
  __repr__ (taxful 10) = "TaxfulPrice('10')".
Proof.
  split; [reflexivity | split; [reflexivity |]].
  exact (repr_names_the_class (taxful 10) "('10')" eq_refl eq_refl).
Defined.

Lemma unit_mixup_text_witness :
  unit_matches_with (taxful 10) (United (taxless 2)) = false /\
  exists e,
    __add__ (taxful 10) (United (taxless 2)) = Raise e /\
    exn___str__ e = "Unit mixup: TaxfulPrice('10') vs TaxlessPrice('2')".
Proof.
  split; [reflexivity |].
  exact (unit_mixup_text_names_both_operands (taxful 10) (taxless 2)
           "('10')" "('2')" eq_refl eq_refl eq_refl eq_refl eq_refl).
Defined.

Lemma divmod_agrees_witness :
  (__divmod__ (taxful 7) (United (taxful 2)) = Ok (plain 3, taxful 1) <->
   __floordiv__ (taxful 7) (United (taxful 2)) = Ok (plain 3) /\
   __mod__ (taxful 7) (United (taxful 2)) = Ok (taxful 1)) /\
  unit_of (taxful 7) = unit_of (taxful 2) /\
  PyDecimal._divide (value (taxful 7)) (value (taxful 2))
    = Ok (PyDecimal.of_int 3, PyDecimal.of_int 1) /\
  exists p s : price,
    __divmod__ (taxful 7) (United (taxful 2)) = Ok (plain 3, taxful 1) /\
    __mul__ (taxful 2) (plain 3) = Ok p /\
    __add__ (F := prices) p (United (taxful 1)) = Ok s /\
    unit_of s = unit_of (taxful 7) /\
    __eq__ (F := prices) s (United (taxful 7)) = Ok (PyBool true).
Proof.
  destruct (divmod_agrees_with_floordiv_and_mod (F := prices) (taxful 7))
    as [Hiff Hid].
  split; [exact (Hiff (United (taxful 2)) (plain 3) (taxful 1)) |].
  split; [reflexivity | split; [reflexivity |]].
  exact (Hid (taxful 2) (PyDecimal.of_int 3) (PyDecimal.of_int 1)
           prices_contract eq_refl eq_refl eq_refl eq_refl eq_refl eq_refl).
Defined.

Lemma double_negation_witness :
  PyDecimal.unrounded (value (taxful 10)) /\
  exists n m : price,
    __neg__ (taxful 10) = Ok n /\ __neg__ (F := prices) n = Ok m /\
    unit_of n = unit_of (taxful 10) /\ unit_of m = unit_of (taxful 10) /\
    __eq__ (F := prices) m (United (taxful 10)) = Ok (PyBool true).
Proof.
  split; [reflexivity |].
  exact (double_negation (F := prices) (taxful 10) prices_contract eq_refl).
Defined.

Lemma sub_is_adding_the_negation_witness :
  unit_of (taxful 10) = unit_of (taxful 4) /\
  PyDecimal.unrounded (value (taxful 4)) /\
  __sub__ (taxful 10) (United (taxful 4)) = Ok (taxful 6) /\
  exists n s : price,
    __neg__ (taxful 4) = Ok n /\
    __add__ (taxful 10) (United n) = Ok s /\
    __eq__ (taxful 6) (United s) = Ok (PyBool true).
Proof.
  split; [reflexivity | split; [reflexivity | split; [reflexivity |]]].
  destruct (sub_is_adding_the_negation (F := prices) (taxful 10) (taxful 4)
              prices_contract eq_refl eq_refl)
    as (n & Hn & _ & Hsub).
  change (__sub__ (taxful 10) (United (taxful 4))) with
    (@Ok (exn (D := PyDecimal.prim) price_class) price (taxful 6)) in Hsub.
  destruct Hsub as (s & Hs & _ & Heq).
  exists n, s. split; [exact Hn | split; [exact Hs | exact Heq]].
Defined.

End FurtherScenarios.
